(** * plot_locfin_posterior_hmc.py: posterior/MAP plotting driver

    A shallow embedding of [src/plot_locfin_posterior_hmc.py].

    - Python floats are read as exact rationals ([Q]); the single place
      where the script narrows to [float32] is kept as a parameter.
    - Python ints are [Z]; lists are [list]; tensors carry a shape.
    - The script's effects (the attribute [ho_model.T], the files it
      writes and removes, the matplotlib calls it makes) live in a
      [World] that is threaded through a state-and-exception monad.
      Directories, console output and the random seed are left out.
    - The numerical libraries (the NUTS sampler, [scipy]'s Gaussian
      kernel density estimate, the decoder network, the PNG encoder) are
      fields of the class [Libs].
    - The embedding starts where the two models are loaded and the
      decoder has been put in evaluation mode. *)

From Stdlib Require Import QArith Lqa.
From stdpp Require Import base option list strings pretty gmap.

Local Open Scope Z_scope.

(** ** Python exceptions the script can meet *)

Inductive Exn : Type :=
| IndexError
| ValueError
| TypeError
| UnboundLocalError
| AttributeError
| FileNotFoundError
| LibraryError.

Inductive Res (A : Type) : Type :=
| Ok (a : A)
| Raise (e : Exn).
Arguments Ok {A} a.
Arguments Raise {A} e.

#[export] Instance Res_ret : MRet Res := @Ok.
#[export] Instance Res_bind : MBind Res := fun A B k r =>
  match r with
  | Ok a => k a
  | Raise e => Raise e
  end.

(** ** Python built-ins *)

Module Py.

(** [len(range(start, stop, step))], as CPython computes it. *)
Definition range_len (start stop step : Z) : Z :=
  if 0 <? step
  then (if start <? stop then (stop - start - 1) / step + 1 else 0)
  else (if stop <? start then (start - stop - 1) / (- step) + 1 else 0).

(** [list(range(start, stop, step))]; a zero step is a [ValueError]. *)
Definition range3 (start stop step : Z) : Res (list Z) :=
  if step =? 0 then Raise ValueError
  else Ok (map (fun k : nat => start + Z.of_nat k * step)
               (seq 0 (Z.to_nat (range_len start stop step)))).

(** [range(n)]. *)
Definition range (n : Z) : list nat := seq 0 (Z.to_nat n).

(** [l[i]] for an int [i]: negative indices count from the end. *)
Definition index {A} (l : list A) (i : Z) : Res A :=
  let n := Z.of_nat (length l) in
  let j := if i <? 0 then i + n else i in
  if (0 <=? j) && (j <? n)
  then match l !! Z.to_nat j with Some x => Ok x | None => Raise IndexError end
  else Raise IndexError.

(** [l[:n]] for a non-negative or negative int [n]. *)
Definition prefix {A} (l : list A) (n : Z) : list A :=
  let len := Z.of_nat (length l) in
  let m := if n <? 0 then Z.max 0 (n + len) else n in
  take (Z.to_nat m) l.

End Py.

(** ** Floats as rationals *)

Definition Qlt_bool (x y : Q) : bool := negb (Qle_bool y x).

(** ** numpy *)

Module Np.

(** [ndarray.argmax()] on a flat array, scanning left to right and
    moving only on a strictly larger entry. *)
Fixpoint argmax_from (best : Q) (bi i : nat) (l : list Q) : nat :=
  match l with
  | [] => bi
  | x :: r =>
      if Qlt_bool best x then argmax_from x i (S i) r
      else argmax_from best bi (S i) r
  end.

Definition argmax (l : list Q) : Res nat :=
  match l with
  | [] => Raise ValueError
  | x :: r => Ok (argmax_from x 0 1 r)
  end.

(** [np.max] of a flat array. *)
Definition amax (l : list Q) : Res Q :=
  match l with
  | [] => Raise ValueError
  | x :: r => Ok (fold_left (fun m y => if Qlt_bool m y then y else m) r x)
  end.

(** An axis given as [slice(start, stop, n*1j)]: the number of points
    is [int(abs(n*1j))]. *)
Definition mgrid_size (bin : Z) : nat := Z.to_nat (Z.abs bin).

(** The spacing [np.mgrid] uses on such an axis. *)
Definition mgrid_step (start stop : Q) (n : nat) : Q :=
  if (n =? 1)%nat then 1%Q
  else ((stop - start) / inject_Z (Z.of_nat n - 1))%Q.

(** Entry [j] of [np.indices((n,)*p)[i].ravel()], in C order. *)
Definition indices_ravel (p n i j : nat) : nat :=
  ((j / n ^ (p - 1 - i)) mod n)%nat.

(** [np.mgrid[[slice(start, stop, bin*1j)]*p][i].ravel()]. *)
Definition mgrid_ravel (start stop : Q) (bin : Z) (p i : nat) : list Q :=
  let n := mgrid_size bin in
  map (fun j : nat =>
         (inject_Z (Z.of_nat (indices_ravel p n i j))
          * mgrid_step start stop n + start)%Q)
      (seq 0 (n ^ p)).

(** [np.vstack(rows)] of equally long rows, held as the list of rows. *)
Definition vstack (rows : list (list Q)) : Res (list (list Q)) :=
  match rows with
  | [] => Raise ValueError
  | _ => Ok rows
  end.

(** [a[:, j]] for a two-dimensional array held as a list of rows. *)
Definition column (rows : list (list Q)) (j : nat) : list Q :=
  map (fun row => nth j row 0%Q) rows.

(** The columns of a [d x m] array. *)
Definition columns (m : nat) (rows : list (list Q)) : list (list Q) :=
  map (column rows) (seq 0 m).

End Np.

(** ** Tensors *)

(** A tensor or array: its shape and its entries in row-major order. *)
Record Tensor : Type := mkTensor { shape : list nat; data : list Q }.

Module Torch.

(** [torch.tensor([[v]*p])]. *)
Definition row_of (v : Q) (p : Z) : Tensor :=
  mkTensor [1%nat; Z.to_nat p] (repeat v (Z.to_nat p)).

(** [t.squeeze()]: every dimension of size one goes. *)
Definition squeeze (t : Tensor) : Tensor :=
  mkTensor (filter (fun d => d ≠ 1%nat) (shape t)) (data t).

(** [t.unsqueeze(0)]. *)
Definition unsqueeze0 (t : Tensor) : Tensor :=
  mkTensor (1%nat :: shape t) (data t).

(** [t.reshape(-1)]. *)
Definition flatten (t : Tensor) : Tensor :=
  mkTensor [length (data t)] (data t).

(** The number of entries of one slice along the first dimension. *)
Definition slice_size (t : Tensor) : nat := foldr Nat.mul 1%nat (tail (shape t)).

(** [t[i]] for [0 <= i]: the [i]-th slice along the first dimension. *)
Definition get (t : Tensor) (i : nat) : Res Tensor :=
  match shape t with
  | [] => Raise IndexError
  | d :: rest =>
      if (i <? d)%nat
      then Ok (mkTensor rest
                 (take (slice_size t) (drop (i * slice_size t) (data t))))
      else Raise IndexError
  end.

(** [[x for x in t]]: iterating a tensor walks its first dimension. *)
Definition rows (t : Tensor) : Res (list Tensor) :=
  match shape t with
  | [] => Raise TypeError
  | d :: rest =>
      Ok (map (fun i => mkTensor rest
                          (take (slice_size t) (drop (i * slice_size t) (data t))))
              (seq 0 d))
  end.

(** [torch.stack(ts)]: the tensors must be there and agree in shape. *)
Definition stack (ts : list Tensor) : Res Tensor :=
  match ts with
  | [] => Raise LibraryError
  | t :: r =>
      if forallb (fun u => bool_decide (shape u = shape t)) r
      then Ok (mkTensor (length ts :: shape t) (concat (map data ts)))
      else Raise LibraryError
  end.

(** [t.item()]: only a one-entry tensor converts to a scalar. *)
Definition item (t : Tensor) : Res Q :=
  match data t with
  | [x] => Ok x
  | _ => Raise ValueError
  end.

(** [a[:, i]] on a two-dimensional array. *)
Definition col (t : Tensor) (i : nat) : Res (list Q) :=
  match shape t with
  | [n; d] =>
      if (i <? d)%nat
      then Ok (map (fun r => nth (r * d + i) (data t) 0%Q) (seq 0 n))
      else Raise IndexError
  | _ => Raise IndexError
  end.

End Torch.

(** ** pyro traces *)

(** A node of a pyro trace, with the fields the script reads. *)
Record Node : Type := mkNode {
  node_name : string;
  subtype : option string;
  value : Tensor }.

(** ** The world the script acts on *)

(** The matplotlib and plotting calls the script makes, in order. *)
Inductive Caption : Type :=
| CapExperiment (T : Z)
| CapTarget.

Inductive PlotCall : Type :=
| Subplots (nrow ncol : nat)
| Scatter (xs ys : list Q)
| Contourf (pdf : Tensor)
| Contour (pdf : Tensor)
| Imshow (img : Tensor)
| SetTitle (c : Caption)
| HideAxes (r c : nat)
| RemoveAx (r c : nat)
| Suptitle (s : string)
| Savefig (path : string)
| PlotTrace (T : Z).

Record World : Type := mkWorld {
  ho_T : Z;
  files : gmap string (list Byte.byte);
  plt_log : list PlotCall }.

(** State and exceptions: a raised exception keeps the world as the
    script left it. *)
Definition M (A : Type) : Type := World -> World * Res A.

Definition ret {A} (a : A) : M A := fun w => (w, Ok a).

Definition bind {A B} (m : M A) (k : A -> M B) : M B :=
  fun w => match m w with
           | (w', Ok a) => k a w'
           | (w', Raise e) => (w', Raise e)
           end.

Definition raise {A} (e : Exn) : M A := fun w => (w, Raise e).

Definition lift {A} (r : Res A) : M A := fun w => (w, r).

#[export] Instance M_ret : MRet M := @ret.
#[export] Instance M_bind : MBind M := fun A B k m => bind m k.

(** A [for] loop over [l] that carries the local variables [S] from one
    pass to the next. *)
Fixpoint for_acc {A S} (l : list A) (s : S) (body : S -> A -> M S) : M S :=
  match l with
  | [] => ret s
  | x :: r => s' ← body s x; for_acc r s' body
  end.

Definition get_T : M Z := fun w => (w, Ok (ho_T w)).

Definition set_T (T : Z) : M unit :=
  fun w => (mkWorld T (files w) (plt_log w), Ok tt).

Definition plt (c : PlotCall) : M unit :=
  fun w => (mkWorld (ho_T w) (files w) (plt_log w ++ [c]), Ok tt).

Module Os.

(** [os.path.join(a, b)] on POSIX. *)
Definition path_join (a b : string) : string :=
  if String.prefix "/" b then b
  else if String.eqb a "" then b
  else if String.prefix "/" (String.rev a) then a +:+ b
  else a +:+ "/" +:+ b.

(** Writing a file creates or replaces it. *)
Definition write (path : string) (bytes : list Byte.byte) : M unit :=
  fun w => (mkWorld (ho_T w) (<[path := bytes]> (files w)) (plt_log w), Ok tt).

Definition read (path : string) : M (list Byte.byte) :=
  fun w => match files w !! path with
           | Some b => (w, Ok b)
           | None => (w, Raise FileNotFoundError)
           end.

(** [os.remove(path)]. *)
Definition remove (path : string) : M unit :=
  fun w => match files w !! path with
           | Some _ => (mkWorld (ho_T w) (delete path (files w)) (plt_log w), Ok tt)
           | None => (w, Raise FileNotFoundError)
           end.

End Os.

(** ** matplotlib's axes arrays *)

(** What [plt.subplots(nrow, ncol)] hands back with the default
    [squeeze=True]: one [Axes], a one-dimensional array, or a grid. *)
Inductive Axs : Type :=
| AxesOne
| Axes1D (n : nat)
| Axes2D (nrow ncol : nat).

Module Plt.

(** [plt.subplots(nrow, ncol)]; a count of zero is refused. *)
Definition subplots (nrow ncol : nat) : M Axs :=
  if ((nrow =? 0) || (ncol =? 0))%nat then raise ValueError
  else
    plt (Subplots nrow ncol) ;;
    ret (if ((nrow =? 1) && (ncol =? 1))%nat then AxesOne
         else if (nrow =? 1)%nat then Axes1D ncol
         else if (ncol =? 1)%nat then Axes1D nrow
         else Axes2D nrow ncol).

(** [axs[i]] for [0 <= i], used as an [Axes]: a row of a grid is an
    array and has none of the drawing methods. *)
Definition index1 (axs : Axs) (i : nat) : Res unit :=
  match axs with
  | AxesOne => Raise TypeError
  | Axes1D n => if (i <? n)%nat then Ok tt else Raise IndexError
  | Axes2D nrow _ =>
      if (i <? nrow)%nat then Raise AttributeError else Raise IndexError
  end.

(** [axs[r, c]] for [0 <= r] and [0 <= c]. *)
Definition index2 (axs : Axs) (r c : nat) : Res unit :=
  match axs with
  | AxesOne => Raise TypeError
  | Axes1D _ => Raise IndexError
  | Axes2D nrow ncol =>
      if ((r <? nrow) && (c <? ncol))%nat then Ok tt else Raise IndexError
  end.

(** [axs[-1, c:]]: the positions of the last row from column [c] on. *)
Definition last_row_from (axs : Axs) (c : nat) : Res (list (nat * nat)) :=
  match axs with
  | AxesOne => Raise TypeError
  | Axes1D _ => Raise IndexError
  | Axes2D nrow ncol =>
      Ok (map (fun j => ((nrow - 1)%nat, j)) (seq c (ncol - c)))
  end.

End Plt.

(** ** pyro's MCMC interface *)

Inductive Kernel : Type :=
| NUTS (target_accept_prob : Q)
| HMC (step_size : Q) (num_steps : Z)
| RandomWalkKernel.

(** NUTS and HMC move along the gradient of the log density. *)
Definition gradient_based (k : Kernel) : bool :=
  match k with
  | NUTS _ | HMC _ _ => true
  | RandomWalkKernel => false
  end.

Record Mcmc : Type := mkMcmc {
  kernel : Kernel;
  num_samples : Z;
  warmup_steps : Z;
  num_chains : Z }.

(** ** Command line and loaded artifacts *)

(** A value of [args.limits]: the default list holds floats, values
    typed on the command line arrive as strings. *)
Inductive PyVal : Type :=
| PyFloat (q : Q)
| PyStr (s : string).

Record Args : Type := mkArgs {
  T_to_plot_arg : option Z;
  theta_index : Z;
  bin : Z;
  limits_arg : list PyVal;
  T_step : Z }.

(** [parser.parse_args()] with nothing given. *)
Definition default_args : Args :=
  mkArgs None 0 50 [PyFloat (-3 # 2); PyFloat (3 # 2)] 10.

(** The nodes of a trace whose subtype is [s]. *)
Definition has_subtype (s : string) (n : Node) : bool :=
  match subtype n with
  | Some s' => String.eqb s' s
  | None => false
  end.

(** [enumerate(l)]. *)
Definition enumerate {A} (l : list A) : list (nat * A) :=
  zip (seq 0 (length l)) l.

(** A [for] loop with no local variable to carry. *)
Definition for_each {A} (l : list A) (body : A -> M unit) : M unit :=
  for_acc l tt (fun _ x => body x).

(** ** The libraries the script stands on

    What the script takes from Python, torch, pyro, scipy, torchvision
    and matplotlib, and from the two trained networks it loads. *)
Class Libs : Type := mkLibs {
  (** Python's [float(s)] on a string. *)
  float_of_string : string -> option Q;
  (** Narrowing a float to [torch.float32]. *)
  to_float32 : Q -> Q;
  (** [MCMC(...).run(data_dict)] followed by [get_samples()['theta']],
      for the model with horizon [T] conditioned on [data_dict]. *)
  nuts_sample : Mcmc -> Z -> gmap string Tensor -> Res Tensor;
  (** [scipy.stats.gaussian_kde(values)]: the fitted density, or an
      error when the data admit none. *)
  gaussian_kde : list (list Q) -> Res (list Q -> Q);
  (** The trained decoder network. *)
  decoder_net : Tensor -> Tensor;
  (** [torchvision]'s PNG writer and [matplotlib]'s PNG reader. *)
  png_encode : Tensor -> list Byte.byte;
  png_decode : list Byte.byte -> Tensor;
  (** matplotlib's rendering of the calls made so far. *)
  render_png : list PlotCall -> list Byte.byte;
  (** The trained design network and the simulator's noisy outcome. *)
  design_net : list (Tensor * Tensor) -> Tensor;
  outcome : Tensor -> Tensor -> nat -> Tensor }.

Section Script.

Context {L : Libs}.

(** Modelled from the spec: [vae_model.decode], whose class is not among
    the sources.  The decoder "maps latent parameters to images": the
    image is a function of the trained network and the latent vector,
    and decoding changes nothing in the world. *)
Definition decode (z : Tensor) : M Tensor := ret (decoder_net z).

(** [save_image(img, path, normalize=True, value_range=(-1,1))]. *)
Definition save_image (img : Tensor) (path : string) : M unit :=
  Os.write path (png_encode img).

(** [plt.savefig(path)]: the current figure goes to a file. *)
Definition savefig (path : string) : M unit :=
  plt (Savefig path);;
  log ← (fun w => (w, Ok (plt_log w)));
  Os.write path (render_png log).

(** [mpimg.imread(path)]. *)
Definition imread (path : string) : M Tensor :=
  b ← Os.read path; ret (png_decode b).

(** Modelled from the spec: the sample sites of the policy model's
    forward pass ([implicit_model.model]), whose class is not among the
    sources.  A roll-out of length [T] is an "ordered sequence of
    (design, observation) pairs": step [t] records a design tagged
    [design_sample] and then an observation tagged [observation_sample]. *)
Fixpoint rollout_sites (T t : nat) (hist : list (Tensor * Tensor))
    (theta : Tensor) : list Node :=
  match T with
  | O => []
  | S T' =>
      let xi := design_net hist in
      let y := outcome theta xi t in
      mkNode ("xi" +:+ pretty (Z.of_nat t + 1)) (Some "design_sample") xi
      :: mkNode ("y" +:+ pretty (Z.of_nat t + 1)) (Some "observation_sample") y
      :: rollout_sites T' (S t) (hist ++ [(xi, y)]) theta
  end.

(** Modelled from the spec: the policy model run with horizon [T]; the
    latent parameter is recorded first, tagged [latent_sample]. *)
Definition policy_model (T : Z) (theta : Tensor) : list Node :=
  mkNode "theta" (Some "latent_sample") theta
  :: rollout_sites (Z.to_nat T) 0 [] theta.

(** [pyro.poutine.trace(model).get_trace()]: the sites of the model
    between the two untagged nodes pyro adds. *)
Definition get_trace (sites : list Node) : list Node :=
  mkNode "_INPUT" None (mkTensor [] [])
  :: sites ++ [mkNode "_RETURN" None (mkTensor [] [])].

(** [torch.cat(ts, axis=-1)] on vectors. *)
Definition cat (ts : list Tensor) : Res Tensor :=
  match ts with
  | [] => Raise LibraryError
  | _ => let d := concat (map data ts) in Ok (mkTensor [length d] d)
  end.

(** [run_policy(implicit_model, theta)] with [theta] given: the model is
    conditioned on it, and runs with the horizon [implicit_model.T]
    holds at the time of the call. *)
Definition run_policy (theta : Tensor)
    : M (list Tensor * list Tensor * Tensor) :=
  T ← get_T;
  match shape theta with
  | [] => raise IndexError
  | _ =>
      let trace := get_trace (policy_model T theta) in
      let designs := map value (filter (has_subtype "design_sample") trace) in
      let observations :=
        map value (filter (has_subtype "observation_sample") trace) in
      let latents := map value (filter (has_subtype "latent_sample") trace) in
      latents ← lift (cat latents);
      ret (designs, observations, latents)
  end.

(** [t[i]] read as a float. *)
Definition scalar_at (t : Tensor) (i : nat) : Res Q :=
  x ← Torch.get t i; Torch.item x.

(** [plot_posterior_grid]: one contour panel per checkpoint, saved as a
    single figure.  Axis limits, labels, legends and colour bars leave
    no trace here. *)
Definition plot_posterior_grid (limits : Q * Q) (grid : list Tensor)
    (pdf_post_list : list Tensor) (designs : list Tensor)
    (T_to_plot : list Z) (mi_estimator : string) (true_theta : Tensor)
    (dir : string) (index : Z) : M unit :=
  match grid with
  | [xx; yy] =>
      axs ← Plt.subplots 1 (length T_to_plot);
      for_each (enumerate T_to_plot) (fun '(i, T) =>
        pdf ← lift (Py.index pdf_post_list (Z.of_nat i));
        vmax ← lift (Np.amax (data pdf));
        lift (Plt.index1 axs i);;
        row ← lift (Torch.get true_theta 0);
        x ← lift (scalar_at row 0);
        y ← lift (scalar_at row 1);
        plt (Scatter [x] [y]);;
        ds ← for_acc (Py.prefix designs T) ([], []) (fun '(d0, d1) design =>
          a ← lift (scalar_at (Torch.squeeze design) 0);
          b ← lift (scalar_at (Torch.squeeze design) 1);
          ret (d0 ++ [a], d1 ++ [b]));
        plt (Scatter ds.1 ds.2);;
        plt (Contourf pdf);;
        plt (Contour pdf);;
        plt (SetTitle (CapExperiment T)));;
      T_last ← lift (Py.index T_to_plot (-1));
      plt (Suptitle ("T=" +:+ pretty T_last +:+ " Example " +:+ mi_estimator
                     +:+ " Posterior"));;
      savefig (dir +:+ "/2dim_" +:+ mi_estimator +:+ "_" +:+ pretty T_last
                    +:+ "_" +:+ pretty index +:+ "progress.png")
  | _ => raise ValueError
  end.

(** [plot_vae_decode]: decode every embedding through a scratch PNG and
    tile the images.  The local [tmp_img_dir] is bound by the first pass
    of the loop, so it is carried as an optional value.  The distance
    shown in a caption is not part of the model. *)
Definition plot_vae_decode (embedding_list : list Tensor) (dir : string)
    (mi_estimator : string) (T_list : list Z) (index p : Z)
    (type : string) : M unit :=
  let ncol := 4%nat in
  let nrow := (length T_list / ncol + 1)%nat in
  axs ← Plt.subplots nrow ncol;
  tmp ← for_acc (enumerate embedding_list) None
    (fun (_ : option string) '(i, embedding) =>
       let row := (i / ncol)%nat in
       let col := (i mod ncol)%nat in
       recon ← decode embedding;
       let tmp_img_dir := Os.path_join dir "temp.png" in
       save_image recon tmp_img_dir;;
       img ← imread tmp_img_dir;
       lift (Plt.index2 axs row col);;
       plt (Imshow img);;
       (if (i <? length T_list)%nat
        then Ti ← lift (Py.index T_list (Z.of_nat i));
             plt (SetTitle (CapExperiment Ti))
        else plt (SetTitle CapTarget));;
       ret (Some tmp_img_dir));
  for_each (seq 0 nrow) (fun r =>
    for_each (seq 0 ncol) (fun c =>
      lift (Plt.index2 axs r c);; plt (HideAxes r c)));;
  cells ← lift (Plt.last_row_from axs (length embedding_list mod ncol));
  for_each cells (fun '(r, c) => plt (RemoveAx r c));;
  match tmp with
  | Some tmp_img_dir => Os.remove tmp_img_dir
  | None => raise UnboundLocalError
  end;;
  plt (Suptitle ("T=30 Example " +:+ mi_estimator +:+ " " +:+ type));;
  savefig (dir +:+ "/" +:+ pretty p +:+ "_dim_" +:+ mi_estimator +:+ "_"
           +:+ type +:+ "_" +:+ pretty index +:+ "_progress.png").

(** [float(x)]. *)
Definition py_float (v : PyVal) : Res Q :=
  match v with
  | PyFloat q => Ok q
  | PyStr s =>
      match float_of_string s with
      | Some q => Ok q
      | None => Raise ValueError
      end
  end.

(** The sampler the script builds for a latent of dimension [p]. *)
Definition mcmc_of (p : Z) : Mcmc :=
  mkMcmc (NUTS (9 # 10)) (250 * p) (200 * p) 4.

(** [grid]: one array per latent dimension. *)
Definition make_grid (limits : Q * Q) (bin p : Z) : list Tensor :=
  map (fun i => mkTensor (repeat (Np.mgrid_size bin) (Z.to_nat p))
                  (Np.mgrid_ravel limits.1 limits.2 bin (Z.to_nat p) i))
      (Py.range p).

(** [positions]: row [i] holds coordinate [i] of every grid point. *)
Definition make_positions (grid : list Tensor) : Res (list (list Q)) :=
  Np.vstack (map data grid).

(** The observed prefix handed to the sampler: [xi1], [y1], ... *)
Fixpoint build_data_dict (ts : list nat) (designs observations : list Tensor)
    (data_dict : gmap string Tensor) : Res (gmap string Tensor) :=
  match ts with
  | [] => Ok data_dict
  | t :: r =>
      xi ← Py.index designs (Z.of_nat t);
      y ← Py.index observations (Z.of_nat t);
      build_data_dict r designs observations
        (<["y" +:+ pretty (Z.of_nat t + 1) := Torch.unsqueeze0 y]>
           (<["xi" +:+ pretty (Z.of_nat t + 1) := Torch.unsqueeze0 xi]> data_dict))
  end.

(** Density and MAP from the posterior samples: the density estimate on
    every grid position, the first position where it is largest, and
    the density reshaped to the grid. *)
Definition extract_map (grid : list Tensor) (positions : list (list Q))
    (p : Z) (samples : Tensor) : Res (Tensor * Tensor) :=
  let posterior := Torch.squeeze samples in
  posterior_by_dim ← mapM (Torch.col posterior) (Py.range p);
  values ← Np.vstack posterior_by_dim;
  kernel ← gaussian_kde values;
  let pdf := map kernel (Np.columns (length (default [] (head positions))) positions) in
  j ← Np.argmax pdf;
  let map_point := map to_float32 (Np.column positions j) in
  grid0 ← Py.index grid 0;
  Ok (mkTensor [length map_point] map_point, mkTensor (shape grid0) pdf).

(** One pass of the checkpoint loop; [acc] is [(map_list, f_list)]. *)
Definition checkpoint (grid : list Tensor) (positions : list (list Q))
    (p : Z) (designs observations : list Tensor)
    (acc : list Tensor * list Tensor) (T : Z) : M (list Tensor * list Tensor) :=
  temp ← get_T;
  set_T T;;
  T_now ← get_T;
  data_dict ← lift (build_data_dict (Py.range T_now) designs observations ∅);
  let mcmc := mcmc_of p in
  T_run ← get_T;
  samples ← lift (nuts_sample mcmc T_run data_dict);
  mf ← lift (extract_map grid positions p samples);
  set_T temp;;
  ret (acc.1 ++ [mf.1], acc.2 ++ [mf.2]).

(** One pass of the loop that lists the designs and observations of the
    roll-out; [acc] is [(run_xis, run_ys)]. *)
Definition list_step (output_path : string) (designs observations : list Tensor)
    (acc : list Tensor * list Q) (t : nat) : M (list Tensor * list Q) :=
  d ← lift (Py.index designs (Z.of_nat t));
  d0 ← lift (Torch.get d 0);
  let xi := Torch.flatten d0 in
  o ← lift (Py.index observations (Z.of_nat t));
  y ← lift (scalar_at o 0);
  (if (t mod 5 =? 0)%nat
   then recon ← decode xi;
        save_image recon
          (Os.path_join output_path
             ("target_0_recon_" +:+ pretty (Z.of_nat t) +:+ ".png"))
   else ret tt);;
  ret (acc.1 ++ [xi], acc.2 ++ [y]).

(** The data frame of the run: the designs stacked, one column per
    latent dimension. *)
Definition run_frame (p : Z) (run_xis : list Tensor) : Res Tensor :=
  df ← Torch.stack run_xis;
  if bool_decide (tail (shape df) = [Z.to_nat p]) then Ok df
  else Raise ValueError.

(** What the script fixes before the experiment: the true parameter,
    the grid and its positions, and the checkpoints. *)
Record Setup : Type := mkSetup {
  theta : Tensor;
  grid : list Tensor;
  positions : list (list Q);
  T_to_plot : list Z }.

(** The bounding box of the grid: the value parsed from [args.limits] is
    replaced at once by the constant pair. *)
Definition grid_limits (args : Args) : Res (Q * Q) :=
  limits ← mapM py_float (limits_arg args);
  let limits := ((-3 # 2)%Q, (3 # 2)%Q) in
  Ok limits.

(** From [p = ho_model.p * 1] to the list of checkpoints. *)
Definition prepare (args : Args) (ho_p : Z) : M Setup :=
  let p := ho_p * 1 in
  let theta_list := [Torch.row_of (1 # 2) p] in
  theta ← lift (Py.index theta_list (theta_index args));
  limits ← lift (grid_limits args);
  let grid := make_grid limits (bin args) p in
  positions ← lift (make_positions grid);
  T_model ← get_T;
  T_to_plot ← lift (match T_to_plot_arg args with
                    | None => Py.range3 0 (T_model + 1) (T_step args)
                    | Some T => Py.range3 0 (T + 1) (T_step args)
                    end);
  ret (mkSetup theta grid positions T_to_plot).

(** "One experiment": the roll-out at the last checkpoint, the decoded
    target, the listing of the run and its trace plot.  Returns the
    designs, the observations and the output directory. *)
Definition rollout_block (s : Setup) (p : Z) (mi_estimator : string)
    : M (list Tensor * list Tensor * string) :=
  let dir := "./latex_figures" in
  temp ← get_T;
  T_last ← lift (Py.index (T_to_plot s) (-1));
  set_T T_last;;
  rollout ← run_policy (theta s);
  let designs := rollout.1.1 in
  let observations := rollout.1.2 in
  T ← get_T;
  let output_path :=
    Os.path_join dir (pretty p +:+ "_dim_" +:+ mi_estimator +:+ "_" +:+ pretty T) in
  recon ← decode (Torch.squeeze (theta s));
  save_image recon (Os.path_join output_path "target_0.png");;
  runs ← for_acc (Py.range T) ([], []) (list_step output_path designs observations);
  run_df ← lift (run_frame p runs.1);
  T_trace ← get_T;
  plt (PlotTrace T_trace);;
  set_T temp;;
  ret (designs, observations, output_path).

(** The checkpoint loop, from empty [map_list] and [f_list]. *)
Definition checkpoint_loop (s : Setup) (p : Z)
    (designs observations : list Tensor) : M (list Tensor * list Tensor) :=
  for_acc (T_to_plot s) ([], [])
    (checkpoint (grid s) (positions s) p designs observations).

(** The script, from the artifacts loaded to the last figure. *)
Definition main (args : Args) (ho_p : Z) (mi_estimator design_arch : string)
    : M unit :=
  let mi_estimator :=
    if String.eqb mi_estimator "sPCE"
    then mi_estimator +:+ "_" +:+ design_arch else mi_estimator in
  let p := ho_p * 1 in
  s ← prepare args ho_p;
  run ← rollout_block s p mi_estimator;
  let designs := run.1.1 in
  let observations := run.1.2 in
  let output_path := run.2 in
  lists ← checkpoint_loop s p designs observations;
  let map_list := lists.1 in
  true_thetas ← lift (Torch.rows (theta s));
  plot_vae_decode (map_list ++ true_thetas) output_path mi_estimator
    (T_to_plot s) (theta_index args) p "MAP".

End Script.

(** ** Reasoning about runs *)

(** [preserves I m]: [m] keeps [I], whether it returns or raises. *)
Definition preserves {A} (I : World -> Prop) (m : M A) : Prop :=
  forall w, I w -> I (m w).1.

(** ** The properties of interest *)





(** [j] is a position of [pdf] holding its largest value, and the first
    such position. *)
Definition first_max_at (pdf : list Q) (j : nat) : Prop :=
  (j < length pdf)%nat
  /\ (forall k, (k < length pdf)%nat -> (nth k pdf 0 <= nth j pdf 0)%Q)
  /\ (forall k, (k < j)%nat -> (nth k pdf 0 < nth j pdf 0)%Q).

(** The density values on the grid positions, for a fitted [kernel]. *)
Definition pdf_on (kernel : list Q -> Q) (positions : list (list Q)) : list Q :=
  map kernel (Np.columns (length (default [] (head positions))) positions).

(** [s] ends with [suf]. *)
Definition ends_with (suf s : string) : Prop :=
  exists k, String.list_ascii_of_string s = k ++ String.list_ascii_of_string suf.

(** A call of the contour renderer's drawing routines. *)
Definition is_contour (c : PlotCall) : bool :=
  match c with
  | Contourf _ | Contour _ => true
  | _ => false
  end.


(** ** A small instance to run the script on *)

Module Demo.

Definition parse (s : string) : option Q :=
  if String.eqb s "0" then Some 0%Q
  else if String.eqb s "1" then Some 1%Q
  else None.

Definition sampler (m : Mcmc) (T : Z) (d : gmap string Tensor) : Res Tensor :=
  Ok (mkTensor [4%nat; 1%nat; 2%nat]
        [0 # 1; 1 # 1; 1 # 2; 1 # 2; 1 # 1; 0 # 1; 1 # 2; 1 # 4]%Q).

Definition density (v : list (list Q)) : Res (list Q -> Q) :=
  Ok (fun pt =>
        match pt with
        | [x; y] =>
            Qred (1 / (1 + (x - (1 # 2)) * (x - (1 # 2))
                         + (y - (1 # 2)) * (y - (1 # 2))))%Q
        | _ => 0%Q
        end).

Definition designer (h : list (Tensor * Tensor)) : Tensor :=
  mkTensor [1%nat; 1%nat; 2%nat] [inject_Z (Z.of_nat (length h)); 0 # 1]%Q.

Definition simulator (th xi : Tensor) (t : nat) : Tensor :=
  mkTensor [1%nat; 1%nat] [1 # 1]%Q.

Definition libs : Libs :=
  mkLibs parse (fun q => q) sampler density (fun z => z)
         (fun _ => []) (fun _ => mkTensor [] []) (fun _ => [])
         designer simulator.

(** A freshly loaded model with horizon 30 and no file written yet. *)
Definition world : World := mkWorld 30 ∅ [].

(** [--bin 5 --limits 0 1]. *)
Definition args : Args := mkArgs None 0 5 [PyStr "0"; PyStr "1"] 10.

(** [--T-to-plot 30 --T-step 10 --bin 5]. *)
Definition args30 : Args := mkArgs (Some 30) 0 5 [PyFloat (-3 # 2); PyFloat (3 # 2)] 10.

(** What [prepare] hands on for [args30] and a two-dimensional latent. *)
Definition setup : Setup :=
  Eval vm_compute in
    match @prepare libs args30 2 world with
    | (_, Ok s) => s
    | _ => mkSetup (mkTensor [] []) [] [] []
    end.

(** [(map_list, f_list)] after the pass for checkpoint 0. *)
Definition first_pass : list Tensor * list Tensor :=
  Eval vm_compute in
    match @checkpoint libs (grid setup) (positions setup) 2 [] [] ([], []) 0 world with
    | (_, Ok lists) => lists
    | _ => ([], [])
    end.

(** The designs and observations of the roll-out of length 30. *)
Definition designs : list Tensor :=
  Eval vm_compute in
    match @run_policy libs (theta setup) world with
    | (_, Ok r) => r.1.1
    | _ => []
    end.

Definition observations : list Tensor :=
  Eval vm_compute in
    match @run_policy libs (theta setup) world with
    | (_, Ok r) => r.1.2
    | _ => []
    end.

(** [(map_list, f_list)] when the checkpoint loop is over. *)
Definition lists : list Tensor * list Tensor :=
  Eval vm_compute in
    match @checkpoint_loop libs setup 2 designs observations world with
    | (_, Ok l) => l
    | _ => ([], [])
    end.

(** The world the script leaves behind. *)
Definition final : World :=
  Eval vm_compute in (@main libs args30 2 "sPCE" "sum" world).1.

(** The world [plot_vae_decode] leaves behind when called on its own. *)
Definition plotted : World :=
  Eval vm_compute in
    (@plot_vae_decode libs (lists.1 ++ [Torch.squeeze (theta setup)]) "out"
       "sPCE_sum" (T_to_plot setup) 0 2 "MAP" world).1.

End Demo.


(** ** Further notions and instances *)

(** [raises_keep I m]: when [m] raises, it leaves a world where [I]
    holds. *)
Definition raises_keep {A} (I : World -> Prop) (m : M A) : Prop :=
  forall w, I w ->
    match m w with
    | (w', Raise _) => I w'
    | (_, Ok _) => True
    end.

(** The caption of panel [i]: its checkpoint, or [Target] past the last
    checkpoint. *)
Definition caption_at (T_list : list Z) (i : nat) : Caption :=
  match T_list !! i with
  | Some T => CapExperiment T
  | None => CapTarget
  end.

(** The image of an embedding as it comes back from the scratch file. *)
Definition shown_image {L : Libs} (embedding : Tensor) : Tensor :=
  png_decode (png_encode (decoder_net embedding)).

(** The calls that show the embeddings [l], the first in panel [i]. *)
Fixpoint panel_calls {L : Libs} (T_list : list Z) (i : nat) (l : list Tensor)
    : list PlotCall :=
  match l with
  | [] => []
  | e :: r =>
      Imshow (shown_image e) :: SetTitle (caption_at T_list i)
      :: panel_calls T_list (S i) r
  end.

(** The calls that hide the axes of rows [a], ..., [a + n - 1]. *)
Definition hide_calls (a n ncol : nat) : list PlotCall :=
  flat_map (fun r => map (HideAxes r) (seq 0 ncol)) (seq a n).

(** The calls that remove the cells of the last row from column [k] on. *)
Definition remove_calls (nrow ncol k : nat) : list PlotCall :=
  map (RemoveAx (nrow - 1)) (seq k (ncol - k)).

(** A call that removes a cell. *)
Definition is_remove (c : PlotCall) : bool :=
  match c with
  | RemoveAx _ _ => true
  | _ => false
  end.

(** The world [plot_vae_decode] leaves when it returns. *)
Definition tiled {L : Libs} (embedding_list : list Tensor) (dir mi_estimator : string)
    (T_list : list Z) (index p : Z) (type : string) (w : World) : World :=
  let nrow := (length T_list / 4 + 1)%nat in
  let path := dir +:+ "/" +:+ pretty p +:+ "_dim_" +:+ mi_estimator +:+ "_"
              +:+ type +:+ "_" +:+ pretty index +:+ "_progress.png" in
  let log := plt_log w ++ [Subplots nrow 4]
             ++ panel_calls T_list 0 embedding_list
             ++ hide_calls 0 nrow 4
             ++ remove_calls nrow 4 (length embedding_list mod 4)
             ++ [Suptitle ("T=30 Example " +:+ mi_estimator +:+ " " +:+ type);
                 Savefig path] in
  mkWorld (ho_T w)
    (<[path := render_png log]>
       (delete (Os.path_join dir "temp.png") (files w)))
    log.

(** [outside w0 w]: the files of [w] whose names do not start with
    [./latex_figures/] are those of [w0]. *)
Definition outside (w0 w : World) : Prop :=
  forall path,
    String.prefix "./latex_figures/" path = false ->
    files w !! path = files w0 !! path.

Module Demo2.

(** [--T-to-plot 30 --T-step 7 --bin 5]. *)
Definition args7 : Args := mkArgs (Some 30) 0 5 [] 7.

Definition setup7 : Setup :=
  Eval vm_compute in
    match @prepare Demo.libs args7 2 Demo.world with
    | (_, Ok s) => s
    | _ => mkSetup (mkTensor [] []) [] [] []
    end.

(** One checkpoint only, at 0: [--T-to-plot 0]. *)
Definition setup0 : Setup :=
  mkSetup (theta Demo.setup) (grid Demo.setup) (positions Demo.setup) [0].

(** The world a roll-out block of length 0 leaves when it raises. *)
Definition rolled0 : World :=
  Eval vm_compute in (@rollout_block Demo.libs setup0 2 "sPCE_sum" Demo.world).1.

(** The roll-out block of the small instance: its world and its result. *)
Definition rolled : World :=
  Eval vm_compute in
    (@rollout_block Demo.libs Demo.setup 2 "sPCE_sum" Demo.world).1.

Definition run : list Tensor * list Tensor * string :=
  Eval vm_compute in
    match @rollout_block Demo.libs Demo.setup 2 "sPCE_sum" Demo.world with
    | (_, Ok r) => r
    | _ => ([], [], "")
    end.

(** [(map_list, f_list)] after the pass for checkpoint 10 alone. *)
Definition pass10 : list Tensor * list Tensor :=
  Eval vm_compute in
    match @checkpoint Demo.libs (grid Demo.setup) (positions Demo.setup) 2
            Demo.designs Demo.observations ([], []) 10 Demo.world with
    | (_, Ok lists) => lists
    | _ => ([], [])
    end.

(** Seven checkpoints and eight embeddings: two full rows of panels. *)
Definition seven : list Z := [0; 10; 20; 30; 40; 50; 60].

Definition eight : list Tensor := repeat (mkTensor [2%nat] [1 # 2; 1 # 2]%Q) 8.

Definition tiled8 : World :=
  Eval vm_compute in
    (@plot_vae_decode Demo.libs eight "out" "sPCE_sum" seven 0 2 "MAP"
       Demo.world).1.

(** The world [plot_posterior_grid] leaves for the small instance. *)
Definition contoured : World :=
  Eval vm_compute in
    (@plot_posterior_grid Demo.libs ((-3 # 2)%Q, (3 # 2)%Q) (grid Demo.setup)
       Demo.lists.2 Demo.designs (T_to_plot Demo.setup) "sPCE_sum"
       (theta Demo.setup) "./latex_figures" 0 Demo.world).1.

(** A world with a file of the user's next to the output directory. *)
Definition world_notes : World :=
  mkWorld 30 (<["notes.txt" := []]> ∅) [].

End Demo2.


(** * Properties *)

(** ** The definitions on small inputs *)

Example range_to_30_by_10 : Py.range3 0 (30 + 1) 10 = Ok [0; 10; 20; 30].
Proof. reflexivity. Qed.

Example range_zero_step : Py.range3 0 31 0 = Raise ValueError.
Proof. reflexivity. Qed.

Example range_downwards : Py.range3 5 0 (-2) = Ok [5; 3; 1].
Proof. reflexivity. Qed.

Example index_from_the_end : Py.index [0; 10; 20] (-1) = Ok 20.
Proof. reflexivity. Qed.

Example index_out_of_range : Py.index [0; 10; 20] 3 = Raise IndexError.
Proof. reflexivity. Qed.

Example argmax_takes_first_of_ties :
  Np.argmax [1 # 1; 3 # 1; 2 # 1; 3 # 1]%Q = Ok 1%nat.
Proof. reflexivity. Qed.

Example mgrid_three_points :
  map Qred (Np.mgrid_ravel (-3 # 2) (3 # 2) 3 1 0)
  = [(-3 # 2)%Q; (0 # 1)%Q; (3 # 2)%Q].
Proof. reflexivity. Qed.

Example mgrid_second_axis_runs_fastest :
  map Qred (Np.mgrid_ravel 0 1 2 2 1) = [0 # 1; 1 # 1; 0 # 1; 1 # 1]%Q.
Proof. reflexivity. Qed.

Example path_join_plain : Os.path_join "out" "temp.png" = "out/temp.png".
Proof. reflexivity. Qed.

Example path_join_slash : Os.path_join "out/" "temp.png" = "out/temp.png".
Proof. reflexivity. Qed.

Example default_limits_pass_float :
  @grid_limits Demo.libs default_args = Ok ((-3 # 2)%Q, (3 # 2)%Q).
Proof. reflexivity. Qed.

Example unparsed_limits_raise :
  @grid_limits Demo.libs (mkArgs None 0 50 [PyStr "0"; PyStr "wide"] 10)
  = Raise ValueError.
Proof. reflexivity. Qed.

Example squeeze_true_theta :
  shape (Torch.squeeze (Torch.row_of (1 # 2) 3)) = [3%nat].
Proof. reflexivity. Qed.

Example squeeze_scalar_theta :
  shape (Torch.squeeze (Torch.row_of (1 # 2) 1)) = [].
Proof. reflexivity. Qed.

Example one_row_of_axes :
  (Plt.subplots 1 4 Demo.world).2 = Ok (Axes1D 4).
Proof. reflexivity. Qed.

Example two_rows_of_axes :
  (Plt.subplots 2 4 Demo.world).2 = Ok (Axes2D 2 4).
Proof. reflexivity. Qed.

(** The small instance runs to its end, and leaves the decoded target
    and every fifth decoded design behind. *)
Example demo_run_returns :
  (@main Demo.libs Demo.args30 2 "sPCE" "sum" Demo.world).2 = Ok tt.
Proof. vm_compute. reflexivity. Qed.

Example demo_run_target :
  is_Some (files Demo.final !! "./latex_figures/2_dim_sPCE_sum_30/target_0.png").
Proof. vm_compute. eauto. Qed.

(** With three checkpoints the same run stops in [plot_vae_decode]. *)
Example demo_run_three_checkpoints :
  (@main Demo.libs (mkArgs (Some 20) 0 5 [] 10) 2 "sPCE" "sum" Demo.world).2
  = Raise IndexError.
Proof. vm_compute. reflexivity. Qed.


(** ** numpy: [argmax] and [mgrid] *)

Lemma Qlt_bool_true (x y : Q) : Qlt_bool x y = true <-> (x < y)%Q.
Proof.
  unfold Qlt_bool. rewrite negb_true_iff.
  split; intros H.
  - apply Qnot_le_lt. intros Hle. apply Qle_bool_iff in Hle. congruence.
  - destruct (Qle_bool y x) eqn:E; [|reflexivity].
    apply Qle_bool_iff in E. exfalso. exact (Qlt_not_le _ _ H E).
Qed.

Lemma Qlt_bool_false (x y : Q) : Qlt_bool x y = false <-> (y <= x)%Q.
Proof.
  unfold Qlt_bool. rewrite negb_false_iff. apply Qle_bool_iff.
Qed.

(** The scan keeps, in [(best, bi)], the first largest entry of what it
    has read. *)
Lemma argmax_from_first_max (l pre : list Q) (best : Q) (bi i : nat) :
  i = length pre ->
  (bi < i)%nat ->
  nth bi pre 0%Q = best ->
  (forall k, (k < i)%nat -> (nth k pre 0 <= best)%Q) ->
  (forall k, (k < bi)%nat -> (nth k pre 0 < best)%Q) ->
  first_max_at (pre ++ l) (Np.argmax_from best bi i l).
Proof.
  revert pre best bi i.
  induction l as [|x r IH]; intros pre best bi i Hi Hbi Hnth Hle Hlt; simpl.
  - rewrite app_nil_r. unfold first_max_at. rewrite <- Hi, Hnth. auto.
  - replace (pre ++ x :: r) with ((pre ++ [x]) ++ r)
      by (rewrite <- app_assoc; reflexivity).
    assert (Hx : nth i (pre ++ [x]) 0%Q = x).
    { rewrite app_nth2 by lia. subst i. rewrite Nat.sub_diag. reflexivity. }
    assert (Hold : forall k, (k < i)%nat -> nth k (pre ++ [x]) 0%Q = nth k pre 0%Q).
    { intros k Hk. apply app_nth1. lia. }
    destruct (Qlt_bool best x) eqn:E.
    + apply Qlt_bool_true in E.
      apply IH.
      * rewrite length_app. simpl. lia.
      * lia.
      * exact Hx.
      * intros k Hk. destruct (decide (k = i)) as [->|Hne].
        -- rewrite Hx. apply Qle_refl.
        -- rewrite Hold by lia. apply Qle_trans with best; [apply Hle; lia|].
           apply Qlt_le_weak. exact E.
      * intros k Hk. rewrite Hold by lia.
        apply Qle_lt_trans with best; [apply Hle; lia | exact E].
    + apply Qlt_bool_false in E.
      apply IH.
      * rewrite length_app. simpl. lia.
      * lia.
      * rewrite Hold by lia. exact Hnth.
      * intros k Hk. destruct (decide (k = i)) as [->|Hne].
        -- rewrite Hx. exact E.
        -- rewrite Hold by lia. apply Hle. lia.
      * intros k Hk. rewrite Hold by lia. apply Hlt. exact Hk.
Qed.

Lemma argmax_first_max (l : list Q) (j : nat) :
  Np.argmax l = Ok j -> first_max_at l j.
Proof.
  destruct l as [|x r]; simpl; [discriminate|].
  intros [= <-].
  apply (argmax_from_first_max r [x] x 0 1); simpl; auto.
  - intros k Hk. replace k with 0%nat by lia. apply Qle_refl.
  - intros k Hk. lia.
Qed.





(** ** Runs that return *)

Lemma res_bind_ok {A B} (r : Res A) (k : A -> Res B) (b : B) :
  r ≫= k = Ok b -> exists a, r = Ok a /\ k a = Ok b.
Proof. destruct r as [a|e]; simpl; [eauto | discriminate]. Qed.

Lemma bind_ok {A B} (m : M A) (k : A -> M B) (w w' : World) (b : B) :
  (m ≫= k) w = (w', Ok b) ->
  exists a w1, m w = (w1, Ok a) /\ k a w1 = (w', Ok b).
Proof.
  unfold mbind, M_bind, bind.
  destruct (m w) as [w1 [a|e]]; [eauto | discriminate].
Qed.

Lemma lift_ok {A} (r : Res A) (w w' : World) (a : A) :
  lift r w = (w', Ok a) -> w' = w /\ r = Ok a.
Proof. unfold lift. intros [= -> ->]. auto. Qed.

Lemma ret_ok {A} (x a : A) (w w' : World) :
  (mret x : M A) w = (w', Ok a) -> w' = w /\ a = x.
Proof. unfold mret, M_ret, ret. intros [= -> ->]. auto. Qed.

Lemma get_T_ok (w w' : World) (T : Z) :
  get_T w = (w', Ok T) -> w' = w /\ T = ho_T w.
Proof. unfold get_T. intros [= -> ->]. auto. Qed.

(** Peel one bind off a run that returned. *)
Tactic Notation "res_inv" hyp(H) "as" ident(a) ident(Ha) :=
  apply res_bind_ok in H; destruct H as [a [Ha H]].

Tactic Notation "run_inv" hyp(H) "as" ident(a) ident(w) ident(Ha) :=
  apply bind_ok in H; destruct H as [a [w [Ha H]]].

(** The same for a step that leaves the world alone. *)
Tactic Notation "lift_inv" hyp(H) "as" ident(a) ident(Ha) :=
  let w := fresh "w" in
  apply bind_ok in H; destruct H as [a [w [Ha H]]];
  apply lift_ok in Ha; destruct Ha as [-> Ha].

Tactic Notation "get_T_inv" hyp(H) :=
  let a := fresh "T" in
  let w := fresh "w" in
  let Ha := fresh "H" in
  apply bind_ok in H; destruct H as [a [w [Ha H]]];
  apply get_T_ok in Ha; destruct Ha as [-> ->].

Tactic Notation "set_T_inv" hyp(H) :=
  let a := fresh "u" in
  let w := fresh "w" in
  let Ha := fresh "H" in
  apply bind_ok in H; destruct H as [a [w [Ha H]]];
  unfold set_T in Ha; injection Ha as <- <-.



Section Extraction.

Context {L : Libs}.

Lemma grid_limits_ok (args : Args) (limits : Q * Q) :
  grid_limits args = Ok limits -> limits = ((-3 # 2)%Q, (3 # 2)%Q).
Proof.
  unfold grid_limits. intros H. res_inv H as l Hl. injection H as <-. reflexivity.
Qed.

Lemma make_grid_data (limits : Q * Q) (bin p : Z) :
  map data (make_grid limits bin p)
  = map (Np.mgrid_ravel limits.1 limits.2 bin (Z.to_nat p)) (Py.range p).
Proof. unfold make_grid. rewrite map_map. reflexivity. Qed.

Lemma mgrid_ravel_length (lo hi : Q) (bin : Z) (p i : nat) :
  length (Np.mgrid_ravel lo hi bin p i) = (Np.mgrid_size bin ^ p)%nat.
Proof. unfold Np.mgrid_ravel. rewrite length_map, length_seq. reflexivity. Qed.

(** What [prepare] hands on, when it returns. *)
Lemma prepare_ok (args : Args) (ho_p : Z) (w w' : World) (s : Setup) :
  prepare args ho_p w = (w', Ok s) ->
  w' = w
  /\ theta s = Torch.row_of (1 # 2) (ho_p * 1)
  /\ grid_limits args = Ok ((-3 # 2)%Q, (3 # 2)%Q)
  /\ grid s = make_grid ((-3 # 2)%Q, (3 # 2)%Q) (bin args) (ho_p * 1)
  /\ positions s = map data (grid s)
  /\ positions s <> []
  /\ match T_to_plot_arg args with
     | None => Py.range3 0 (ho_T w + 1) (T_step args)
     | Some T => Py.range3 0 (T + 1) (T_step args)
     end = Ok (T_to_plot s).
Proof.
  unfold prepare. intros H.
  lift_inv H as th Hth.
  lift_inv H as lim Hlim.
  pose proof (grid_limits_ok _ _ Hlim) as ->.
  lift_inv H as pos Hpos.
  get_T_inv H.
  lift_inv H as Ts HT.
  apply ret_ok in H. destruct H as [-> ->]. simpl.
  assert (th = Torch.row_of (1 # 2) (ho_p * 1)) as ->.
  { unfold Py.index in Hth. simpl in Hth.
    destruct (theta_index args <? 0); simpl in Hth;
      repeat match type of Hth with
             | context [if ?b then _ else _] => destruct b; simpl in Hth
             end; try discriminate;
      match type of Hth with
      | context [Z.to_nat ?z] => destruct (Z.to_nat z); simpl in Hth
      end; congruence. }
  unfold make_positions, Np.vstack in Hpos.
  destruct (map data (make_grid _ _ _)) eqn:E; [discriminate|].
  injection Hpos as <-.
  repeat split; auto.
Qed.

End Extraction.


Section Checkpoints.

Context {L : Libs}.

Lemma extract_map_ok (grid : list Tensor) (positions : list (list Q)) (p : Z)
    (samples m f : Tensor) :
  extract_map grid positions p samples = Ok (m, f) ->
  exists values kernel j,
    mapM (Torch.col (Torch.squeeze samples)) (Py.range p) = Ok values
    /\ gaussian_kde values = Ok kernel
    /\ Np.argmax (pdf_on kernel positions) = Ok j
    /\ data m = map to_float32 (Np.column positions j)
    /\ data f = pdf_on kernel positions.
Proof.
  unfold extract_map. intros H.
  res_inv H as by_dim Hdim. res_inv H as values Hv.
  res_inv H as kernel Hk. res_inv H as j Hj. res_inv H as g0 Hg.
  injection H as <- <-.
  assert (by_dim = values) as ->.
  { unfold Np.vstack in Hv. destruct by_dim; [discriminate | congruence]. }
  exists values, kernel, j. auto.
Qed.

(** A pass of the checkpoint loop that returns has appended one MAP
    point and one density grid, and has put [ho_model.T] back. *)
Lemma checkpoint_ok (grid : list Tensor) (positions : list (list Q)) (p : Z)
    (designs observations : list Tensor) (acc acc' : list Tensor * list Tensor)
    (T : Z) (w w' : World) :
  checkpoint grid positions p designs observations acc T w = (w', Ok acc') ->
  exists data_dict samples m f,
    build_data_dict (Py.range T) designs observations ∅ = Ok data_dict
    /\ nuts_sample (mcmc_of p) T data_dict = Ok samples
    /\ extract_map grid positions p samples = Ok (m, f)
    /\ acc' = (acc.1 ++ [m], acc.2 ++ [f])
    /\ w' = w.
Proof.
  unfold checkpoint. intros H.
  get_T_inv H. set_T_inv H. get_T_inv H. simpl in H.
  lift_inv H as d Hd.
  get_T_inv H. simpl in H.
  lift_inv H as samples Hs.
  lift_inv H as mf Hm.
  set_T_inv H.
  apply ret_ok in H. destruct H as [-> ->]. simpl.
  destruct mf as [m f].
  exists d, samples, m, f.
  repeat split; auto. destruct w; reflexivity.
Qed.

End Checkpoints.


Section MapPoint.

Context {L : Libs}.

Lemma pdf_on_length (kernel : list Q -> Q) (positions : list (list Q)) :
  length (pdf_on kernel positions) = length (default [] (head positions)).
Proof.
  unfold pdf_on, Np.columns. rewrite !length_map, length_seq. reflexivity.
Qed.



End MapPoint.



(** ** The grid and the [--limits] flag *)




Section Limits.

Context {L : Libs}.


End Limits.




(** ** Loops that return *)

(** A property of the processed prefix, the loop variables and the
    world, kept by every pass that returns, holds when the loop returns. *)
Lemma for_acc_ok {A S} (P : list A -> S -> World -> Prop)
    (body : S -> A -> M S) :
  (forall done x s w s' w',
      P done s w -> body s x w = (w', Ok s') -> P (done ++ [x]) s' w') ->
  forall l done s w s' w',
    P done s w -> for_acc l s body w = (w', Ok s') -> P (done ++ l) s' w'.
Proof.
  intros Hbody. induction l as [|x r IH]; intros done s w s' w' HP H; simpl in H.
  - apply ret_ok in H. destruct H as [-> ->]. rewrite app_nil_r. exact HP.
  - run_inv H as s1 w1 H1.
    replace (done ++ x :: r) with ((done ++ [x]) ++ r)
      by (rewrite <- app_assoc; reflexivity).
    eapply IH; [|exact H]. eapply Hbody; eassumption.
Qed.

(** ** The sampler *)

Section Sampler.

Context {L : Libs}.

(** C4, amended: every checkpoint samples with NUTS, a gradient-based
    kernel, at target acceptance probability 0.9, with 250 p samples and
    200 p warm-up steps for a latent of dimension p, on four chains. *)
Theorem checkpoint_sampler (grid : list Tensor) (positions : list (list Q))
    (p : Z) (designs observations : list Tensor)
    (acc acc' : list Tensor * list Tensor) (T : Z) (w w' : World) :
  checkpoint grid positions p designs observations acc T w = (w', Ok acc') ->
  exists (mcmc : Mcmc) (data_dict : gmap string Tensor) (samples : Tensor),
    nuts_sample mcmc T data_dict = Ok samples
    /\ kernel mcmc = NUTS (9 # 10)
    /\ gradient_based (kernel mcmc) = true
    /\ num_samples mcmc = 250 * p
    /\ warmup_steps mcmc = 200 * p
    /\ num_chains mcmc = 4.
Proof.
  intros H. apply checkpoint_ok in H.
  destruct H as (data_dict & samples & m & f & _ & Hs & _).
  eexists (mcmc_of p), _, samples. split; [exact Hs|]. simpl. auto.
Qed.

End Sampler.

(** The amended claim on the pass for checkpoint 0 of the small instance. *)
Lemma checkpoint_sampler_witness :
  exists (mcmc : Mcmc) (data_dict : gmap string Tensor) (samples : Tensor),
    @nuts_sample Demo.libs mcmc 0 data_dict = Ok samples
    /\ kernel mcmc = NUTS (9 # 10)
    /\ gradient_based (kernel mcmc) = true
    /\ num_samples mcmc = 250 * 2
    /\ warmup_steps mcmc = 200 * 2
    /\ num_chains mcmc = 4.
Proof.
  apply (checkpoint_sampler (L := Demo.libs) (grid Demo.setup)
           (positions Demo.setup) 2 [] [] ([], []) Demo.first_pass 0
           Demo.world Demo.world).
  vm_compute. reflexivity.
Defined.

(** C4 as stated fails: the warm-up length is not the same for every
    latent dimension. *)
Lemma warmup_depends_on_dimension :
  ~ (forall p q : Z, warmup_steps (mcmc_of p) = warmup_steps (mcmc_of q)).
Proof.
  intros H. specialize (H 1 2). vm_compute in H. discriminate.
Qed.

(** ** The checkpoint loop *)

Section Loop.

Context {L : Libs}.

(** C5: when the checkpoint loop returns, [map_list] and [f_list] hold
    one entry per checkpoint; for [--T-to-plot 30 --T-step 10] the
    checkpoints are 0, 10, 20, 30 and both lists have four entries. *)
Theorem checkpoint_loop_counts (args : Args) (ho_p : Z) (s : Setup)
    (w0 w1 : World) (p : Z) (designs observations : list Tensor)
    (lists : list Tensor * list Tensor) (w w' : World) :
  prepare args ho_p w0 = (w1, Ok s) ->
  checkpoint_loop s p designs observations w = (w', Ok lists) ->
  (length lists.1 = length (T_to_plot s)
   /\ length lists.2 = length (T_to_plot s))
  /\ (T_to_plot_arg args = Some 30 /\ T_step args = 10 ->
      T_to_plot s = [0; 10; 20; 30]
      /\ length lists.1 = 4%nat /\ length lists.2 = 4%nat).
Proof.
  intros Hprep Hloop.
  assert (Hlen : length lists.1 = length (T_to_plot s)
                 /\ length lists.2 = length (T_to_plot s)).
  { unfold checkpoint_loop in Hloop.
    apply (for_acc_ok
             (fun done (acc : list Tensor * list Tensor) _ =>
                length acc.1 = length done /\ length acc.2 = length done)
             _) with (done := []) in Hloop.
    - exact Hloop.
    - intros done T acc wa acc' wb [H1 H2] Hpass.
      apply checkpoint_ok in Hpass.
      destruct Hpass as (_ & _ & m & f & _ & _ & _ & -> & _). simpl.
      rewrite !length_app, H1, H2. auto.
    - auto. }
  split; [exact Hlen|].
  intros [Harg Hstep]. apply prepare_ok in Hprep.
  destruct Hprep as (_ & _ & _ & _ & _ & _ & HT).
  rewrite Harg, Hstep in HT.
  change (Py.range3 0 (30 + 1) 10) with (Ok [0; 10; 20; 30]) in HT.
  injection HT as HT.
  destruct Hlen as [H1 H2]. rewrite H1, H2, <- HT. auto.
Qed.

End Loop.

(** The claim on the small instance, run with [--T-to-plot 30 --T-step 10]. *)
Lemma checkpoint_loop_counts_witness :
  T_to_plot Demo.setup = [0; 10; 20; 30]
  /\ length Demo.lists.1 = 4%nat /\ length Demo.lists.2 = 4%nat.
Proof.
  apply (checkpoint_loop_counts (L := Demo.libs) Demo.args30 2 Demo.setup
           Demo.world Demo.world 2 Demo.designs Demo.observations Demo.lists
           Demo.world Demo.world).
  - vm_compute. reflexivity.
  - vm_compute. reflexivity.
  - vm_compute. auto.
Defined.


(** ** The roll-out *)

Section Rollout.

Context {L : Libs}.

Lemma rollout_sites_designs (T t : nat) (hist : list (Tensor * Tensor))
    (theta : Tensor) :
  length (filter (has_subtype "design_sample") (rollout_sites T t hist theta)) = T.
Proof.
  revert t hist. induction T as [|T IH]; intros t hist; cbn [rollout_sites].
  - reflexivity.
  - rewrite filter_cons_True by exact I.
    rewrite filter_cons_False by (intros H; exact H).
    cbn [length]. f_equal. apply IH.
Qed.

Lemma rollout_sites_observations (T t : nat) (hist : list (Tensor * Tensor))
    (theta : Tensor) :
  length (filter (has_subtype "observation_sample")
            (rollout_sites T t hist theta)) = T.
Proof.
  revert t hist. induction T as [|T IH]; intros t hist; cbn [rollout_sites].
  - reflexivity.
  - rewrite filter_cons_False by (intros H; exact H).
    rewrite filter_cons_True by exact I.
    cbn [length]. f_equal. apply IH.
Qed.

(** The trace of a run holds exactly [T] designs and [T] observations. *)
Lemma trace_counts (T : Z) (theta : Tensor) :
  let trace := get_trace (policy_model T theta) in
  length (filter (has_subtype "design_sample") trace) = Z.to_nat T
  /\ length (filter (has_subtype "observation_sample") trace) = Z.to_nat T
  /\ filter (has_subtype "latent_sample") trace <> [].
Proof.
  unfold get_trace, policy_model. cbv zeta. cbn [app].
  repeat split.
  - rewrite filter_cons_False by (intros H; exact H).
    rewrite filter_cons_False by (intros H; exact H).
    rewrite filter_app, length_app, rollout_sites_designs.
    rewrite filter_cons_False by (intros H; exact H). simpl. lia.
  - rewrite filter_cons_False by (intros H; exact H).
    rewrite filter_cons_False by (intros H; exact H).
    rewrite filter_app, length_app, rollout_sites_observations.
    rewrite filter_cons_False by (intros H; exact H). simpl. lia.
  - rewrite filter_cons_False by (intros H; exact H).
    rewrite filter_cons_True by exact I. discriminate.
Qed.

(** C6: with [ho_model.T] set to [T], [run_policy] returns, the world
    unchanged, and hands back exactly [T] designs and [T] observations. *)
Theorem run_policy_lengths (theta : Tensor) (T : Z) (w : World) :
  0 <= T ->
  shape theta <> [] ->
  ho_T w = T ->
  exists designs observations latents,
    run_policy theta w = (w, Ok (designs, observations, latents))
    /\ Z.of_nat (length designs) = T
    /\ Z.of_nat (length observations) = T.
Proof.
  intros HT Hshape Hw.
  destruct (trace_counts T theta) as (Hd & Ho & Hl).
  unfold run_policy, mbind, M_bind, bind, get_T. rewrite Hw.
  destruct (shape theta) as [|d rest] eqn:Es; [congruence|].
  unfold lift, cat.
  destruct (map value (filter (has_subtype "latent_sample")
                          (get_trace (policy_model T theta)))) as [|l0 ls] eqn:El.
  { apply map_eq_nil in El. contradiction. }
  eexists _, _, _. split; [reflexivity|].
  rewrite !length_map, Hd, Ho. lia.
Qed.

End Rollout.

(** The claim on the roll-out of length 30 of the small instance. *)
Lemma run_policy_lengths_witness :
  exists designs observations latents,
    @run_policy Demo.libs (theta Demo.setup) Demo.world
    = (Demo.world, Ok (designs, observations, latents))
    /\ Z.of_nat (length designs) = 30
    /\ Z.of_nat (length observations) = 30.
Proof.
  apply (run_policy_lengths (L := Demo.libs) (theta Demo.setup) 30 Demo.world).
  - vm_compute. discriminate.
  - vm_compute. discriminate.
  - vm_compute. reflexivity.
Defined.

(** ** The decoder *)

Section Decoder.

Context {L : Libs}.

(** The true parameter as the script decodes it first, squeezed, and as
    it reaches [plot_vae_decode], a row of [theta]: the same vector once
    the latent has another dimension than one. *)
Lemma true_theta_rows (v : Q) (p : Z) :
  Z.to_nat p <> 1%nat ->
  Torch.rows (Torch.row_of v p) = Ok [Torch.squeeze (Torch.row_of v p)].
Proof.
  intros Hp. unfold Torch.rows, Torch.squeeze, Torch.row_of. simpl.
  unfold Torch.slice_size. simpl.
  rewrite Nat.mul_1_r, drop_0, take_ge by (rewrite repeat_length; lia).
  rewrite filter_cons_False by (intros H; apply H; reflexivity).
  rewrite filter_cons_True by exact Hp.
  reflexivity.
Qed.


End Decoder.


(** ** File names *)

Lemma list_ascii_app (a b : string) :
  String.list_ascii_of_string (a +:+ b)
  = String.list_ascii_of_string a ++ String.list_ascii_of_string b.
Proof. induction a as [|c a IH]; simpl; [reflexivity | f_equal; exact IH]. Qed.

Lemma ends_with_refl (suf : string) : ends_with suf suf.
Proof. exists []. reflexivity. Qed.

Lemma ends_with_app (suf s t : string) :
  ends_with suf t -> ends_with suf (s +:+ t).
Proof.
  intros [k Hk]. exists (String.list_ascii_of_string s ++ k).
  rewrite list_ascii_app, Hk, app_assoc. reflexivity.
Qed.

(** No name ends both in [temp.png] and in [_progress.png]. *)
Lemma temp_not_progress (s : string) :
  ends_with "temp.png" s -> ends_with "_progress.png" s -> False.
Proof.
  intros [k1 H1] [k2 H2]. rewrite H1 in H2.
  change (String.list_ascii_of_string "_progress.png")
    with (String.list_ascii_of_string "_prog" ++ String.list_ascii_of_string "ress.png") in H2.
  rewrite app_assoc in H2.
  apply app_inj_2 in H2; [|reflexivity].
  destruct H2 as [_ H2]. discriminate H2.
Qed.

Lemma path_join_temp (dir : string) :
  ends_with "temp.png" (Os.path_join dir "temp.png").
Proof.
  unfold Os.path_join. simpl.
  destruct (String.eqb dir ""); [apply ends_with_refl|].
  destruct (String.prefix "/" (String.rev dir)).
  - apply ends_with_app, ends_with_refl.
  - apply ends_with_app, ends_with_app, ends_with_refl.
Qed.

(** ** The scratch file of [plot_vae_decode] *)

Section Scratch.

Context {L : Libs}.

Lemma plt_ok (c : PlotCall) (w w' : World) (u : unit) :
  plt c w = (w', Ok u) ->
  w' = mkWorld (ho_T w) (files w) (plt_log w ++ [c]).
Proof. unfold plt. intros [= <-]. reflexivity. Qed.

Lemma savefig_ok (path : string) (w w' : World) (u : unit) :
  savefig path w = (w', Ok u) ->
  ho_T w' = ho_T w
  /\ files w' = <[path := render_png (plt_log w ++ [Savefig path])]> (files w)
  /\ plt_log w' = plt_log w ++ [Savefig path].
Proof.
  unfold savefig. intros H.
  run_inv H as u1 w1 H1. apply plt_ok in H1. subst w1.
  run_inv H as log w2 H2. injection H2 as <- <-.
  unfold Os.write in H. injection H as <-. simpl. auto.
Qed.

Lemma remove_ok (path : string) (w w' : World) (u : unit) :
  Os.remove path w = (w', Ok u) ->
  ho_T w' = ho_T w /\ files w' = delete path (files w)
  /\ plt_log w' = plt_log w.
Proof.
  unfold Os.remove. destruct (files w !! path); [|discriminate].
  intros [= <-]. simpl. auto.
Qed.

(** C8: when [plot_vae_decode], given at least one embedding, returns
    normally, the scratch file [temp.png] of the output directory does
    not exist any more. *)
Theorem temp_file_removed (embedding_list : list Tensor) (dir : string)
    (mi_estimator : string) (T_list : list Z) (index p : Z) (type : string)
    (w w' : World) :
  embedding_list <> [] ->
  plot_vae_decode embedding_list dir mi_estimator T_list index p type w
    = (w', Ok tt) ->
  files w' !! Os.path_join dir "temp.png" = None.
Proof.
  intros Hne H. unfold plot_vae_decode in H.
  run_inv H as axs w1 Haxs.
  run_inv H as tmp w2 Hloop.
  assert (Htmp : tmp = Some (Os.path_join dir "temp.png")).
  { apply (for_acc_ok
             (fun done (acc : option string) _ =>
                (done = [] /\ acc = None)
                \/ acc = Some (Os.path_join dir "temp.png"))
             _) with (done := []) in Hloop.
    - destruct Hloop as [[Hnil _]|Hsome]; [|exact Hsome].
      simpl in Hnil. unfold enumerate in Hnil.
      destruct embedding_list; [congruence | discriminate Hnil].
    - intros done [i e] acc wa acc' wb _ Hbody. right.
      run_inv Hbody as recon wc Hc.
      run_inv Hbody as u1 wd Hd.
      run_inv Hbody as img we He.
      run_inv Hbody as u2 wf Hf.
      run_inv Hbody as u3 wg Hg.
      run_inv Hbody as u4 wh Hh.
      apply ret_ok in Hbody. destruct Hbody as [_ ->]. reflexivity.
    - left. auto. }
  subst tmp.
  run_inv H as u1 w3 Hhide.
  run_inv H as cells w4 Hcells.
  run_inv H as u2 w5 Hrm.
  run_inv H as u3 w6 Hremove.
  run_inv H as u4 w7 Hsup.
  apply remove_ok in Hremove. destruct Hremove as (_ & Hfiles6 & _).
  apply plt_ok in Hsup. subst w7.
  apply savefig_ok in H. destruct H as (_ & Hfiles & _).
  rewrite Hfiles. simpl. rewrite Hfiles6.
  rewrite lookup_insert_ne.
  - apply lookup_delete_eq.
  - intros Heq.
    apply (temp_not_progress (Os.path_join dir "temp.png")).
    + apply path_join_temp.
    + rewrite <- Heq. repeat apply ends_with_app. apply ends_with_refl.
Qed.

End Scratch.


(** ** Fewer than four checkpoints *)

Section FewCheckpoints.

Context {L : Libs}.

(** C9: with fewer than four checkpoints the axes come as one row, a
    one-dimensional array, and [plot_vae_decode] raises [IndexError] at
    its first two-index access: nothing has been drawn by then, and with
    an embedding to show the scratch file is left behind. *)
Theorem plot_vae_decode_needs_four (embedding_list : list Tensor)
    (dir : string) (mi_estimator : string) (T_list : list Z) (index p : Z)
    (type : string) (w : World) :
  (length T_list < 4)%nat ->
  (Plt.subplots (length T_list / 4 + 1) 4 w).2 = Ok (Axes1D 4)
  /\ exists w',
      plot_vae_decode embedding_list dir mi_estimator T_list index p type w
      = (w', Raise IndexError)
      /\ plt_log w' = plt_log w ++ [Subplots 1 4]
      /\ (embedding_list <> [] ->
          is_Some (files w' !! Os.path_join dir "temp.png")).
Proof.
  intros Hlen.
  assert (Hrow : (length T_list / 4 + 1 = 1)%nat).
  { rewrite Nat.div_small by exact Hlen. reflexivity. }
  unfold plot_vae_decode. rewrite Hrow.
  split; [reflexivity|].
  destruct embedding_list as [|e r].
  - eexists. split; [reflexivity|]. split; [reflexivity|]. congruence.
  - unfold enumerate. cbn [length seq zip zip_with for_acc].
    unfold Plt.subplots, plt, decode, save_image, imread, Os.write, Os.read,
      lift, mret, M_ret, ret, mbind, M_bind, bind. simpl.
    rewrite lookup_insert_eq. simpl.
    eexists. split; [reflexivity|]. simpl.
    split; [reflexivity|]. intros _. rewrite lookup_insert_eq. eauto.
Qed.

End FewCheckpoints.

(** The claim with three checkpoints and four embeddings. *)
Lemma plot_vae_decode_needs_four_witness :
  (@Plt.subplots (length [0; 10; 20] / 4 + 1) 4 Demo.world).2 = Ok (Axes1D 4)
  /\ exists w',
      @plot_vae_decode Demo.libs (Demo.lists.1) "out" "sPCE" [0; 10; 20] 0 2
        "MAP" Demo.world
      = (w', Raise IndexError)
      /\ plt_log w' = plt_log Demo.world ++ [Subplots 1 4]
      /\ (Demo.lists.1 <> [] ->
          is_Some (files w' !! Os.path_join "out" "temp.png")).
Proof.
  apply (plot_vae_decode_needs_four (L := Demo.libs)).
  simpl. lia.
Defined.


(** ** Invariants of a run *)

Section Preserves.

Context {L : Libs}.
Variable I : World -> Prop.

Lemma preserves_ret {A} (a : A) : preserves I (mret a : M A).
Proof. intros w Hw. exact Hw. Qed.

Lemma preserves_bind {A B} (m : M A) (k : A -> M B) :
  preserves I m -> (forall a, preserves I (k a)) -> preserves I (m ≫= k).
Proof.
  intros Hm Hk w Hw. unfold mbind, M_bind, bind.
  specialize (Hm w Hw). destruct (m w) as [w1 [a|e]]; simpl in *.
  - apply Hk. exact Hm.
  - exact Hm.
Qed.

Lemma preserves_lift {A} (r : Res A) : preserves I (lift r).
Proof. intros w Hw. exact Hw. Qed.

Lemma preserves_raise {A} (e : Exn) : preserves I (raise e : M A).
Proof. intros w Hw. exact Hw. Qed.

Lemma preserves_get_T : preserves I get_T.
Proof. intros w Hw. exact Hw. Qed.

Lemma preserves_for_acc {A S} (l : list A) (s : S) (body : S -> A -> M S) :
  (forall s x, preserves I (body s x)) -> preserves I (for_acc l s body).
Proof.
  intros Hbody. revert s. induction l as [|x r IH]; intros s; simpl.
  - apply preserves_ret.
  - apply preserves_bind; [apply Hbody | intros s'; apply IH].
Qed.

Lemma preserves_set_T (T : Z) :
  (forall w, I w -> I (mkWorld T (files w) (plt_log w))) ->
  preserves I (set_T T).
Proof. intros H w Hw. apply H. exact Hw. Qed.

Lemma preserves_plt (c : PlotCall) :
  (forall w, I w -> I (mkWorld (ho_T w) (files w) (plt_log w ++ [c]))) ->
  preserves I (plt c).
Proof. intros H w Hw. apply H. exact Hw. Qed.

Lemma preserves_write (path : string) (b : list Byte.byte) :
  (forall w, I w -> I (mkWorld (ho_T w) (<[path := b]> (files w)) (plt_log w))) ->
  preserves I (Os.write path b).
Proof. intros H w Hw. apply H. exact Hw. Qed.

Lemma preserves_read (path : string) : preserves I (Os.read path).
Proof.
  intros w Hw. unfold Os.read. destruct (files w !! path); exact Hw.
Qed.

Lemma preserves_remove (path : string) :
  (forall w, I w -> I (mkWorld (ho_T w) (delete path (files w)) (plt_log w))) ->
  preserves I (Os.remove path).
Proof.
  intros H w Hw. unfold Os.remove. destruct (files w !! path); simpl.
  - apply H. exact Hw.
  - exact Hw.
Qed.

Lemma preserves_read_log :
  preserves I (fun w => (w, Ok (plt_log w)) : World * Res (list PlotCall)).
Proof. intros w Hw. exact Hw. Qed.

End Preserves.

(** Walk through a procedure, leaving the conditions on the calls that
    change the world. *)
Ltac pres_step :=
  lazymatch goal with
  | |- preserves _ (mbind _ _) => apply preserves_bind; [|intros ?]
  | |- preserves _ (mret _) => apply preserves_ret
  | |- preserves _ (ret _) => apply preserves_ret
  | |- preserves _ (lift _) => apply preserves_lift
  | |- preserves _ (raise _) => apply preserves_raise
  | |- preserves _ get_T => apply preserves_get_T
  | |- preserves _ (set_T _) => apply preserves_set_T
  | |- preserves _ (plt _) => apply preserves_plt
  | |- preserves _ (Os.write _ _) => apply preserves_write
  | |- preserves _ (Os.read _) => apply preserves_read
  | |- preserves _ (Os.remove _) => apply preserves_remove
  | |- preserves _ (for_acc _ _ _) => apply preserves_for_acc; intros ? ?
  | |- preserves _ (for_each _ _) => unfold for_each
  | |- preserves _ (decode _) => unfold decode
  | |- preserves _ (save_image _ _) => unfold save_image
  | |- preserves _ (imread _) => unfold imread
  | |- preserves _ (savefig _) => unfold savefig
  | |- preserves _ (Plt.subplots _ _) => unfold Plt.subplots
  | |- preserves _ (run_policy _) => unfold run_policy
  | |- preserves _ (list_step _ _ _ _ _) => unfold list_step
  | |- preserves _ (checkpoint _ _ _ _ _ _ _) => unfold checkpoint
  | |- preserves _ (checkpoint_loop _ _ _ _) => unfold checkpoint_loop
  | |- preserves _ (rollout_block _ _ _) => unfold rollout_block
  | |- preserves _ (prepare _ _) => unfold prepare
  | |- preserves _ (plot_vae_decode _ _ _ _ _ _ _) => unfold plot_vae_decode
  | |- preserves _ (main _ _ _ _) => unfold main
  | |- preserves _ (match ?x with _ => _ end) => destruct x
  | |- preserves _ ((match ?x with _ => _ end) _) => destruct x
  | |- preserves _ (fun w => (w, Ok (plt_log w))) => apply preserves_read_log
  | |- preserves _ _ => cbv zeta
  end.

Section Horizon.

Context {L : Libs}.


End Horizon.



Section Restore.

Context {L : Libs}.




End Restore.


(** ** What the contour renderer draws *)

Lemma preserves_run {A} (I : World -> Prop) (m : M A) (w w' : World)
    (r : Res A) :
  preserves I m -> I w -> m w = (w', r) -> I w'.
Proof. intros Hp Hw Hrun. specialize (Hp w Hw). rewrite Hrun in Hp. exact Hp. Qed.

Lemma index_last_nonempty {A} (l : list A) (x : A) :
  Py.index l (-1) = Ok x -> l <> [].
Proof. intros H ->. vm_compute in H. discriminate. Qed.

Section Contours.

Context {L : Libs}.

(** A call of [plot_posterior_grid] that returns has drawn a contour. *)
Lemma plot_posterior_grid_draws_contour (limits : Q * Q) (grid pdf_post_list
    designs : list Tensor) (T_to_plot : list Z) (mi_estimator : string)
    (true_theta : Tensor) (dir : string) (index : Z) (w w' : World) :
  plot_posterior_grid limits grid pdf_post_list designs T_to_plot mi_estimator
    true_theta dir index w = (w', Ok tt) ->
  Exists (fun c => is_contour c = true) (plt_log w').
Proof.
  set (I := fun w0 => Exists (fun c => is_contour c = true) (plt_log w0)).
  assert (Hgrow : forall w0 c, I w0 ->
            I (mkWorld (ho_T w0) (files w0) (plt_log w0 ++ [c]))).
  { intros w0 c Hw0. unfold I. simpl. apply Exists_app. left. exact Hw0. }
  unfold plot_posterior_grid. intros H.
  destruct grid as [|xx [|yy [|zz grid]]]; try discriminate H.
  run_inv H as axs w1 Haxs.
  run_inv H as u1 w2 Hloop.
  run_inv H as T_last w3 Hlast.
  apply lift_ok in Hlast. destruct Hlast as [-> Hlast].
  apply index_last_nonempty in Hlast.
  destruct T_to_plot as [|T0 Ts]; [congruence|].
  assert (I2 : I w2).
  { unfold for_each, enumerate in Hloop. cbn [length seq zip zip_with for_acc] in Hloop.
    run_inv Hloop as u2 wa Hbody.
    lift_inv Hbody as pdf Hpdf.
    lift_inv Hbody as vmax Hvmax.
    lift_inv Hbody as u3 Hidx.
    lift_inv Hbody as row Hrow.
    lift_inv Hbody as x Hx.
    lift_inv Hbody as y Hy.
    run_inv Hbody as u4 wb Hsc.
    run_inv Hbody as ds wc Hds.
    run_inv Hbody as u5 wd Hsc2.
    run_inv Hbody as u6 we Hcf.
    apply plt_ok in Hcf.
    assert (Ie : I we).
    { subst we. unfold I. simpl. apply Exists_app. right.
      constructor. reflexivity. }
    assert (Ia : I wa).
    { eapply (preserves_run I); [|exact Ie|exact Hbody].
      repeat pres_step; intros w0 Hw0; apply Hgrow; exact Hw0. }
    eapply (preserves_run I); [|exact Ia|exact Hloop].
    repeat pres_step; intros w0 Hw0; apply Hgrow; exact Hw0. }
  eapply (preserves_run I); [|exact I2|exact H].
  repeat pres_step; intros w0 Hw0;
    first [apply Hgrow; exact Hw0 | exact Hw0].
Qed.

End Contours.


(** The claim on the small instance. *)
Lemma temp_file_removed_witness :
  files Demo.plotted !! Os.path_join "out" "temp.png" = None.
Proof.
  apply (temp_file_removed (L := Demo.libs)
           (Demo.lists.1 ++ [Torch.squeeze (theta Demo.setup)]) "out"
           "sPCE_sum" (T_to_plot Demo.setup) 0 2 "MAP" Demo.world Demo.plotted).
  - vm_compute. discriminate.
  - vm_compute. reflexivity.
Defined.


(** ** What the script draws *)

Section Rendering.

Context {L : Libs}.




End Rendering.




(** * Further properties *)

(** ** The list of checkpoints *)

Lemma range3_upwards (bound step : Z) :
  0 < step -> 0 <= bound ->
  Py.range3 0 (bound + 1) step
  = Ok (map (fun k : nat => Z.of_nat k * step)
          (seq 0 (Z.to_nat (bound / step + 1)))).
Proof.
  intros Hstep Hbound. unfold Py.range3, Py.range_len.
  destruct (Z.eqb_spec step 0) as [->|_]; [lia|].
  destruct (Z.ltb_spec 0 step) as [_|?]; [|lia].
  destruct (Z.ltb_spec 0 (bound + 1)) as [_|?]; [|lia].
  replace (bound + 1 - 0 - 1) with bound by lia.
  f_equal.
Qed.

Lemma index_last_multiples (n : nat) (step : Z) :
  Py.index (map (fun k : nat => Z.of_nat k * step) (seq 0 (S n))) (-1)
  = Ok (Z.of_nat n * step).
Proof.
  unfold Py.index. rewrite length_map, length_seq.
  destruct (Z.ltb_spec (-1) 0) as [_|?]; [|lia].
  replace (-1 + Z.of_nat (S n)) with (Z.of_nat n) by lia.
  destruct (Z.leb_spec 0 (Z.of_nat n)) as [_|?]; [|lia].
  destruct (Z.ltb_spec (Z.of_nat n) (Z.of_nat (S n))) as [_|?]; [|lia].
  simpl andb. cbv iota. rewrite Nat2Z.id.
  rewrite list_lookup_fmap, lookup_seq_lt by lia. reflexivity.
Qed.

Section CheckpointList.

Context {L : Libs}.

(** X1: with a positive step and a bound that is not negative, the
    checkpoints are the multiples of the step from 0 up to the bound, and
    the horizon of the roll-out, the last of them, is the largest
    multiple of the step that is not above the bound. *)
Theorem checkpoints_are_multiples (args : Args) (ho_p : Z) (w w' : World)
    (s : Setup) (bound : Z) :
  prepare args ho_p w = (w', Ok s) ->
  bound = default (ho_T w) (T_to_plot_arg args) ->
  0 < T_step args ->
  0 <= bound ->
  T_to_plot s
  = map (fun k : nat => Z.of_nat k * T_step args)
      (seq 0 (Z.to_nat (bound / T_step args + 1)))
  /\ Z.of_nat (length (T_to_plot s)) = bound / T_step args + 1
  /\ Py.index (T_to_plot s) (-1) = Ok (bound - bound mod T_step args).
Proof.
  intros Hprep -> Hstep Hbound. apply prepare_ok in Hprep.
  destruct Hprep as (_ & _ & _ & _ & _ & _ & HT).
  assert (Hq : 0 <= default (ho_T w) (T_to_plot_arg args) / T_step args).
  { apply Z.div_pos; lia. }
  assert (Hlist : T_to_plot s
                  = map (fun k : nat => Z.of_nat k * T_step args)
                      (seq 0 (Z.to_nat (default (ho_T w) (T_to_plot_arg args)
                                        / T_step args + 1)))).
  { destruct (T_to_plot_arg args) as [T|]; simpl in *;
      rewrite range3_upwards in HT by lia; congruence. }
  split; [exact Hlist|]. rewrite Hlist. split.
  - rewrite length_map, length_seq. lia.
  - replace (Z.to_nat (default (ho_T w) (T_to_plot_arg args) / T_step args + 1))
      with (S (Z.to_nat (default (ho_T w) (T_to_plot_arg args) / T_step args)))
      by lia.
    rewrite index_last_multiples. f_equal.
    rewrite Z2Nat.id by lia.
    pose proof (Z.div_mod (default (ho_T w) (T_to_plot_arg args)) (T_step args)).
    lia.
Qed.

End CheckpointList.


(** X1 on [--T-to-plot 30 --T-step 7]: the roll-out has horizon 28. *)
Lemma checkpoints_are_multiples_witness :
  T_to_plot Demo2.setup7
  = map (fun k : nat => Z.of_nat k * 7) (seq 0 (Z.to_nat (30 / 7 + 1)))
  /\ Z.of_nat (length (T_to_plot Demo2.setup7)) = 30 / 7 + 1
  /\ Py.index (T_to_plot Demo2.setup7) (-1) = Ok (30 - 30 mod 7).
Proof.
  apply (checkpoints_are_multiples (L := Demo.libs) Demo2.args7 2 Demo.world
           Demo.world Demo2.setup7 30).
  - vm_compute. reflexivity.
  - reflexivity.
  - reflexivity.
  - discriminate.
Defined.

(** ** What a run to the end needs *)

Lemma range3_ok (start stop step : Z) (l : list Z) :
  Py.range3 start stop step = Ok l ->
  step <> 0
  /\ l = map (fun k : nat => start + Z.of_nat k * step)
           (seq 0 (Z.to_nat (Py.range_len start stop step))).
Proof.
  unfold Py.range3. destruct (Z.eqb_spec step 0); [discriminate|].
  intros [= <-]. auto.
Qed.

Lemma index_ok_elem {A} (l : list A) (i : Z) (x : A) :
  Py.index l i = Ok x -> x ∈ l.
Proof.
  unfold Py.index.
  destruct ((0 <=? _) && _); [|discriminate].
  destruct (l !! _) as [y|] eqn:E; [|discriminate].
  intros [= <-]. eapply list_elem_of_lookup_2. exact E.
Qed.

Lemma index_singleton_ok {A} (x y : A) (i : Z) :
  Py.index [x] i = Ok y -> (i = 0 \/ i = -1) /\ y = x.
Proof.
  unfold Py.index. cbn [length].
  set (j := if i <? 0 then i + Z.of_nat 1 else i).
  destruct ((0 <=? j) && (j <? Z.of_nat 1)) eqn:E; [|discriminate].
  apply andb_true_iff in E. destruct E as [E1 E2].
  apply Z.leb_le in E1. apply Z.ltb_lt in E2.
  assert (Hj : j = 0) by lia. rewrite Hj. simpl.
  intros [= <-]. split; [|reflexivity].
  unfold j in Hj. destruct (Z.ltb_spec i 0); lia.
Qed.

Section Needs.

Context {L : Libs}.

Lemma run_policy_world (theta : Tensor) (w w' : World)
    (r : Res (list Tensor * list Tensor * Tensor)) :
  run_policy theta w = (w', r) -> w' = w.
Proof.
  unfold run_policy, mbind, M_bind, bind, get_T.
  destruct (shape theta); [intros [= <- _]; reflexivity|].
  unfold lift. destruct (cat _); intros [= <- _]; reflexivity.
Qed.

(** A call of [plot_vae_decode] that returns had four checkpoints. *)
Lemma plot_vae_decode_ok_four (embedding_list : list Tensor)
    (dir mi_estimator : string) (T_list : list Z) (index p : Z) (type : string)
    (w w' : World) :
  plot_vae_decode embedding_list dir mi_estimator T_list index p type w
    = (w', Ok tt) ->
  (4 <= length T_list)%nat.
Proof.
  intros H. destruct (Nat.le_gt_cases 4 (length T_list)) as [|Hlt]; [assumption|].
  exfalso. unfold plot_vae_decode in H.
  rewrite Nat.div_small in H by exact Hlt. change (0 + 1)%nat with 1%nat in H.
  run_inv H as axs w1 Haxs.
  assert (axs = Axes1D 4) as ->.
  { unfold Plt.subplots in Haxs. simpl in Haxs.
    run_inv Haxs as u w0 H0. apply ret_ok in Haxs. apply Haxs. }
  run_inv H as tmp w2 Hloop.
  destruct embedding_list as [|e r].
  - run_inv H as u1 w3 Hhide. unfold for_each in Hhide. simpl in Hhide.
    run_inv Hhide as u2 w4 Hrow. run_inv Hrow as u3 w5 Hcell.
    run_inv Hcell as u4 w6 Hidx. discriminate Hidx.
  - unfold enumerate in Hloop. simpl in Hloop.
    run_inv Hloop as t1 wa Hbody.
    run_inv Hbody as recon wb Hb. run_inv Hbody as u1 wc Hc.
    run_inv Hbody as img wd Hd. run_inv Hbody as u2 we He.
    discriminate He.
Qed.

(** A roll-out block that returns ran with a positive horizon. *)
Lemma rollout_block_ok_positive (s : Setup) (p : Z) (mi_estimator : string)
    (w w' : World) (run : list Tensor * list Tensor * string) :
  rollout_block s p mi_estimator w = (w', Ok run) ->
  exists T_last, Py.index (T_to_plot s) (-1) = Ok T_last /\ 0 < T_last.
Proof.
  unfold rollout_block. intros H.
  get_T_inv H.
  lift_inv H as T_last HT.
  set_T_inv H.
  run_inv H as rollout w1 H1. apply run_policy_world in H1. subst w1.
  get_T_inv H. simpl in H.
  run_inv H as recon w2 H2.
  run_inv H as u1 w3 H3.
  run_inv H as runs w4 H4.
  lift_inv H as run_df Hdf.
  exists T_last. split; [exact HT|].
  destruct (Z.lt_ge_cases 0 T_last) as [|Hle]; [assumption|exfalso].
  unfold Py.range in H4. rewrite Z2Nat.nonpos in H4 by lia.
  simpl in H4. apply ret_ok in H4. destruct H4 as [_ ->].
  discriminate Hdf.
Qed.

(** X2: the script runs to its end only with a positive [--T-step] that
    fits at least three times below the bound of the checkpoints: the
    final tiling needs four checkpoints. *)
Theorem main_needs_four_checkpoints (args : Args) (ho_p : Z)
    (mi_estimator design_arch : string) (w w' : World) (bound : Z) :
  main args ho_p mi_estimator design_arch w = (w', Ok tt) ->
  bound = default (ho_T w) (T_to_plot_arg args) ->
  0 < T_step args /\ 3 * T_step args <= bound.
Proof.
  unfold main. intros H ->.
  run_inv H as s w1 Hprep.
  pose proof (prepare_ok _ _ _ _ _ Hprep) as (-> & _ & _ & _ & _ & _ & HT).
  run_inv H as run w2 Hroll.
  run_inv H as lists w3 Hloop.
  lift_inv H as true_thetas Hrows.
  apply plot_vae_decode_ok_four in H.
  apply rollout_block_ok_positive in Hroll.
  destruct Hroll as (T_last & Hlast & Hpos).
  assert (Hr : Py.range3 0 (default (ho_T w) (T_to_plot_arg args) + 1)
                 (T_step args) = Ok (T_to_plot s)).
  { destruct (T_to_plot_arg args); exact HT. }
  apply range3_ok in Hr. destruct Hr as [Hne Hlist].
  assert (Hstep : 0 < T_step args).
  { destruct (Z.lt_ge_cases 0 (T_step args)) as [|Hle]; [assumption|exfalso].
    apply index_ok_elem in Hlast. rewrite Hlist in Hlast.
    apply list_elem_of_In, in_map_iff in Hlast. destruct Hlast as (k & Hk & _).
    nia. }
  split; [exact Hstep|].
  rewrite Hlist, length_map, length_seq in H.
  unfold Py.range_len in H.
  destruct (Z.ltb_spec 0 (T_step args)) as [_|?]; [|lia].
  destruct (Z.ltb_spec 0 (default (ho_T w) (T_to_plot_arg args) + 1)) as [Hb|?];
    [|simpl in H; lia].
  replace (default (ho_T w) (T_to_plot_arg args) + 1 - 0 - 1)
    with (default (ho_T w) (T_to_plot_arg args)) in H by lia.
  assert (Hq : 3 <= default (ho_T w) (T_to_plot_arg args) / T_step args) by lia.
  pose proof (Z.mul_div_le (default (ho_T w) (T_to_plot_arg args)) (T_step args)
                Hstep).
  nia.
Qed.

End Needs.


(** X2 on the full run of the small instance. *)
Lemma main_needs_four_checkpoints_witness : 0 < 10 /\ 3 * 10 <= 30.
Proof.
  apply (main_needs_four_checkpoints (L := Demo.libs) Demo.args30 2 "sPCE" "sum"
           Demo.world Demo.final 30).
  - vm_compute. reflexivity.
  - reflexivity.
Defined.

Section Needs2.

Context {L : Libs}.

(** X3: the script runs to its end only for the one true parameter it
    knows (index 0, or -1 from the end), a latent of dimension at least
    one, and a grid with at least one bin. *)
Theorem main_needs_theta_dimension_bins (args : Args) (ho_p : Z)
    (mi_estimator design_arch : string) (w w' : World) :
  main args ho_p mi_estimator design_arch w = (w', Ok tt) ->
  (theta_index args = 0 \/ theta_index args = -1)
  /\ 1 <= ho_p
  /\ bin args <> 0.
Proof.
  unfold main. intros H.
  run_inv H as s w1 Hprep.
  pose proof (prepare_ok _ _ _ _ _ Hprep) as (-> & _ & _ & Hgrid & Hpos & Hne & _).
  assert (Hidx : theta_index args = 0 \/ theta_index args = -1).
  { unfold prepare in Hprep. lift_inv Hprep as th Hth.
    apply index_singleton_ok in Hth. apply Hth. }
  assert (Hp : 1 <= ho_p).
  { rewrite Hpos, Hgrid, make_grid_data in Hne.
    destruct (Z.le_gt_cases 1 ho_p) as [|Hlt]; [assumption|exfalso].
    apply Hne. unfold Py.range. rewrite Z2Nat.nonpos by lia. reflexivity. }
  split; [exact Hidx|]. split; [exact Hp|].
  run_inv H as run w2 Hroll.
  apply rollout_block_ok_positive in Hroll.
  destruct Hroll as (T_last & Hlast & _).
  apply index_last_nonempty in Hlast.
  run_inv H as lists w3 Hloop. unfold checkpoint_loop in Hloop.
  destruct (T_to_plot s) as [|T0 Ts]; [congruence|]. simpl in Hloop.
  run_inv Hloop as acc1 wa Hpass.
  apply checkpoint_ok in Hpass.
  destruct Hpass as (_ & samples & m & f & _ & _ & Hex & _).
  apply extract_map_ok in Hex.
  destruct Hex as (values & kernel & j & _ & _ & Hj & _).
  apply argmax_first_max in Hj. destruct Hj as [Hj _].
  rewrite pdf_on_length, Hpos, Hgrid, make_grid_data in Hj.
  intros Hbin. unfold Py.range in Hj.
  destruct (Z.to_nat (ho_p * 1)) as [|p'] eqn:Ep; [lia|].
  simpl in Hj. rewrite mgrid_ravel_length in Hj.
  unfold Np.mgrid_size in Hj. rewrite Hbin in Hj. simpl in Hj. lia.
Qed.

Lemma mapM_py_float_raise (l : list PyVal) (s : string) :
  PyStr s ∈ l -> float_of_string s = None ->
  mapM py_float l = Raise ValueError.
Proof.
  intros Hin Hs. induction l as [|v r IH]; [inversion Hin|].
  cbn [mapM]. apply elem_of_cons in Hin.
  destruct v as [q|s0]; cbn [py_float].
  - destruct Hin as [Heq|Hin]; [discriminate|].
    unfold mbind at 1. cbn [Res_bind]. rewrite (IH Hin). reflexivity.
  - destruct (float_of_string s0) as [q|] eqn:E.
    + destruct Hin as [Heq|Hin]; [congruence|].
      unfold mbind at 1. cbn [Res_bind]. rewrite (IH Hin). reflexivity.
    + reflexivity.
Qed.

(** X4: a value of [--limits] that is no float stops the script with a
    [ValueError] before the roll-out, with no file written and nothing
    drawn, although the parsed limits are never used. *)
Theorem malformed_limits_stop_the_script (args : Args) (ho_p : Z)
    (mi_estimator design_arch : string) (w : World) (s : string) :
  theta_index args = 0 \/ theta_index args = -1 ->
  PyStr s ∈ limits_arg args ->
  float_of_string s = None ->
  main args ho_p mi_estimator design_arch w = (w, Raise ValueError).
Proof.
  intros Hidx Hin Hs.
  unfold main, prepare, grid_limits.
  rewrite (mapM_py_float_raise _ _ Hin Hs).
  destruct Hidx as [-> | ->]; reflexivity.
Qed.

End Needs2.

(** X3 on the full run of the small instance. *)
Lemma main_needs_theta_dimension_bins_witness :
  (0 = 0 \/ 0 = -1) /\ 1 <= 2 /\ 5 <> 0.
Proof.
  apply (main_needs_theta_dimension_bins (L := Demo.libs) Demo.args30 2 "sPCE"
           "sum" Demo.world Demo.final).
  vm_compute. reflexivity.
Defined.

(** X4 on [--limits 0 wide]. *)
Lemma malformed_limits_stop_the_script_witness :
  @main Demo.libs (mkArgs None 0 50 [PyStr "0"; PyStr "wide"] 10) 2 "sPCE" "sum"
    Demo.world
  = (Demo.world, Raise ValueError).
Proof.
  apply (malformed_limits_stop_the_script (L := Demo.libs)
           (mkArgs None 0 50 [PyStr "0"; PyStr "wide"] 10) 2 "sPCE" "sum"
           Demo.world "wide").
  - left. reflexivity.
  - simpl. apply elem_of_cons. right. apply elem_of_cons. left. reflexivity.
  - reflexivity.
Defined.


(** ** What an exception leaves behind *)

Lemma raises_keep_bind {A B} (I : World -> Prop) (m : M A) (k : A -> M B) :
  preserves I m -> (forall a, raises_keep I (k a)) -> raises_keep I (m ≫= k).
Proof.
  intros Hm Hk w Hw. unfold mbind, M_bind, bind.
  specialize (Hm w Hw). destruct (m w) as [w1 [a|e]]; simpl in Hm.
  - apply Hk. exact Hm.
  - exact Hm.
Qed.

Lemma raises_keep_restore {A} (I : World -> Prop) (T : Z) (a : A) :
  raises_keep I (set_T T ≫= fun _ => mret a).
Proof. intros w Hw. exact Logic.I. Qed.

Lemma bind_raise {A B} (m : M A) (k : A -> M B) (w w' : World) (e : Exn) :
  (m ≫= k) w = (w', Raise e) ->
  m w = (w', Raise e)
  \/ exists a w1, m w = (w1, Ok a) /\ k a w1 = (w', Raise e).
Proof.
  unfold mbind, M_bind, bind. destruct (m w) as [w1 [a|e1]].
  - intros H. right. exists a, w1. auto.
  - intros [= -> ->]. left. reflexivity.
Qed.

Section Exceptions.

Context {L : Libs}.

(** X5: a pass of the checkpoint loop that raises has changed nothing
    but [ho_model.T], which it leaves at the checkpoint: the saved value
    is not put back. *)
Theorem checkpoint_raise_keeps_swap (grid : list Tensor)
    (positions : list (list Q)) (p : Z) (designs observations : list Tensor)
    (acc : list Tensor * list Tensor) (T : Z) (w w' : World) (e : Exn) :
  checkpoint grid positions p designs observations acc T w = (w', Raise e) ->
  w' = mkWorld T (files w) (plt_log w).
Proof.
  unfold checkpoint, mbind, M_bind, bind, get_T, set_T, lift, mret, M_ret, ret.
  simpl.
  destruct (build_data_dict _ _ _ _) as [d|e1]; [|intros [= <- _]; reflexivity].
  destruct (nuts_sample _ _ _) as [samples|e2]; [|intros [= <- _]; reflexivity].
  destruct (extract_map _ _ _ _) as [mf|e3]; [|intros [= <- _]; reflexivity].
  discriminate.
Qed.

(** X6: a roll-out block that raises either found no checkpoint at all,
    and left the world alone, or leaves [ho_model.T] at the last
    checkpoint. *)
Theorem rollout_block_raise_keeps_swap (s : Setup) (p : Z)
    (mi_estimator : string) (w w' : World) (e : Exn) :
  rollout_block s p mi_estimator w = (w', Raise e) ->
  (T_to_plot s = [] /\ w' = w /\ e = IndexError)
  \/ (exists T_last,
        Py.index (T_to_plot s) (-1) = Ok T_last /\ ho_T w' = T_last).
Proof.
  unfold rollout_block. intros H.
  apply bind_raise in H. destruct H as [H|(temp & w1 & H1 & H)]; [discriminate H|].
  apply get_T_ok in H1. destruct H1 as [-> ->].
  apply bind_raise in H. destruct H as [H|(T_last & w1 & H1 & H)].
  2: { right. apply lift_ok in H1. destruct H1 as [-> Hidx].
       exists T_last. split; [exact Hidx|].
       apply bind_raise in H. destruct H as [H|(u & w1 & H1 & H)]; [discriminate H|].
       unfold set_T in H1. injection H1 as <- <-.
       match type of H with
       | ?m ?w0 = _ =>
           assert (Hk : raises_keep (fun w1 => ho_T w1 = T_last) m)
       end.
       { repeat (apply raises_keep_bind;
                 [repeat pres_step; intros w1 Hw1; exact Hw1 | intros ?]).
         apply raises_keep_restore. }
       specialize (Hk (mkWorld T_last (files w) (plt_log w)) eq_refl).
       rewrite H in Hk. exact Hk. }
  unfold lift in H.
  destruct (Py.index (T_to_plot s) (-1)) as [T_last|e0] eqn:Hidx;
    [discriminate H|].
  - left. injection H as <- <-.
    destruct (T_to_plot s) as [|T0 Ts] eqn:ETs.
    + vm_compute in Hidx. injection Hidx as <-. auto.
    + exfalso. unfold Py.index in Hidx. cbn [length] in Hidx.
      destruct (Z.ltb_spec (-1) 0) as [_|?]; [|lia].
      destruct (Z.leb_spec 0 (-1 + Z.of_nat (S (length Ts)))) as [_|?]; [|lia].
      destruct (Z.ltb_spec (-1 + Z.of_nat (S (length Ts)))
                  (Z.of_nat (S (length Ts)))) as [_|?]; [|lia].
      cbn [andb] in Hidx.
      destruct (lookup_lt_is_Some_2 (T0 :: Ts)
                  (Z.to_nat (-1 + Z.of_nat (S (length Ts))))) as [x Hx].
      { simpl. lia. }
      rewrite Hx in Hidx. discriminate.
Qed.

End Exceptions.


(** ** The data the sampler is conditioned on *)

Lemma index_nat {A} (l : list A) (t : nat) :
  Py.index l (Z.of_nat t)
  = match l !! t with Some x => Ok x | None => Raise IndexError end.
Proof.
  unfold Py.index.
  destruct (Z.ltb_spec (Z.of_nat t) 0) as [?|_]; [lia|].
  destruct (Z.leb_spec 0 (Z.of_nat t)) as [_|?]; [|lia].
  rewrite Nat2Z.id.
  destruct (Z.ltb_spec (Z.of_nat t) (Z.of_nat (length l))) as [Hlt|Hge]; simpl.
  - reflexivity.
  - rewrite lookup_ge_None_2 by lia. reflexivity.
Qed.

Lemma key_xi_inj (a b : Z) : "xi" +:+ pretty a = "xi" +:+ pretty b -> a = b.
Proof. intros H. apply (inj (String.app "xi")) in H. apply (inj pretty) in H. exact H. Qed.

Lemma key_y_inj (a b : Z) : "y" +:+ pretty a = "y" +:+ pretty b -> a = b.
Proof. intros H. apply (inj (String.app "y")) in H. apply (inj pretty) in H. exact H. Qed.

Lemma key_xi_y (a b : Z) : "xi" +:+ pretty a <> "y" +:+ pretty b.
Proof. simpl. discriminate. Qed.

(** The dictionary after the steps [a], ..., [a + n - 1]. *)
Lemma build_data_dict_seq (n a : nat) (designs observations : list Tensor)
    (d0 d : gmap string Tensor) :
  build_data_dict (seq a n) designs observations d0 = Ok d ->
  (n = 0%nat \/ (a + n <= length designs /\ a + n <= length observations))%nat
  /\ (forall t, (a <= t < a + n)%nat ->
        d !! ("xi" +:+ pretty (Z.of_nat t + 1))
        = Torch.unsqueeze0 <$> designs !! t
        /\ d !! ("y" +:+ pretty (Z.of_nat t + 1))
           = Torch.unsqueeze0 <$> observations !! t)
  /\ (forall key,
        (forall t, (a <= t < a + n)%nat ->
           key <> "xi" +:+ pretty (Z.of_nat t + 1)
           /\ key <> "y" +:+ pretty (Z.of_nat t + 1)) ->
        d !! key = d0 !! key)
  /\ (forall key, is_Some (d !! key) ->
        is_Some (d0 !! key)
        \/ exists t, (a <= t < a + n)%nat
             /\ (key = "xi" +:+ pretty (Z.of_nat t + 1)
                 \/ key = "y" +:+ pretty (Z.of_nat t + 1))).
Proof.
  revert a d0. induction n as [|n IH]; intros a d0 H.
  - simpl in H. injection H as <-. split; [auto|].
    split; [intros t Ht; lia|]. split; auto.
  - cbn [seq build_data_dict] in H. rewrite !index_nat in H.
    destruct (designs !! a) as [xi|] eqn:Ed; [|discriminate H].
    destruct (observations !! a) as [y|] eqn:Eo; [|discriminate H].
    simpl in H. apply IH in H. destruct H as (Hlen & Hin & Hout & Hdom).
    pose proof (lookup_lt_Some _ _ _ Ed). pose proof (lookup_lt_Some _ _ _ Eo).
    assert (Hfirst : d !! ("xi" +:+ pretty (Z.of_nat a + 1)) = Some (Torch.unsqueeze0 xi)
                     /\ d !! ("y" +:+ pretty (Z.of_nat a + 1)) = Some (Torch.unsqueeze0 y)).
    { split.
      - rewrite Hout.
        + rewrite lookup_insert_ne by (apply not_eq_sym, key_xi_y).
          apply lookup_insert_eq.
        + intros t Ht. split.
          * intros Heq. apply key_xi_inj in Heq. lia.
          * apply key_xi_y.
      - rewrite Hout.
        + apply lookup_insert_eq.
        + intros t Ht. split.
          * apply not_eq_sym, key_xi_y.
          * intros Heq. apply key_y_inj in Heq. lia. }
    split; [right; lia|]. split; [|split].
    + intros t Ht. destruct (decide (t = a)) as [->|Hne].
      * rewrite Ed, Eo. exact Hfirst.
      * apply Hin. lia.
    + intros key Hkey. rewrite Hout.
      * destruct (Hkey a) as [K1 K2]; [lia|].
        rewrite !lookup_insert_ne by (apply not_eq_sym; assumption).
        reflexivity.
      * intros t Ht. apply Hkey. lia.
    + intros key Hsome. apply Hdom in Hsome.
      destruct Hsome as [Hsome|(t & Ht & Hk)].
      * destruct (decide (key = "y" +:+ pretty (Z.of_nat a + 1))) as [->|Hy].
        { right. exists a. split; [lia|auto]. }
        rewrite lookup_insert_ne in Hsome by (apply not_eq_sym; exact Hy).
        destruct (decide (key = "xi" +:+ pretty (Z.of_nat a + 1))) as [->|Hx].
        { right. exists a. split; [lia|auto]. }
        rewrite lookup_insert_ne in Hsome by (apply not_eq_sym; exact Hx).
        left. exact Hsome.
      * right. exists t. split; [lia|exact Hk].
Qed.

Lemma build_data_dict_short (n a : nat) (designs observations : list Tensor)
    (d0 : gmap string Tensor) :
  (0 < n)%nat ->
  (length designs < a + n \/ length observations < a + n)%nat ->
  build_data_dict (seq a n) designs observations d0 = Raise IndexError.
Proof.
  revert a d0. induction n as [|n IH]; intros a d0 Hn Hshort; [lia|].
  cbn [seq build_data_dict]. rewrite !index_nat.
  destruct (designs !! a) as [xi|] eqn:Ed; [|reflexivity].
  destruct (observations !! a) as [y|] eqn:Eo; [|reflexivity].
  simpl.
  pose proof (lookup_lt_Some _ _ _ Ed). pose proof (lookup_lt_Some _ _ _ Eo).
  apply IH; lia.
Qed.

Section Conditioning.

Context {L : Libs}.

(** X7: a pass of the checkpoint loop that returns has run the sampler,
    for the model with horizon [T], on a dictionary that holds exactly
    the first [T] designs under [xi1], ..., [xiT] and the first [T]
    observations under [y1], ..., [yT], each with a leading batch
    dimension. *)
Theorem checkpoint_conditions_on_prefix (grid : list Tensor)
    (positions : list (list Q)) (p : Z) (designs observations : list Tensor)
    (acc acc' : list Tensor * list Tensor) (T : Z) (w w' : World) :
  checkpoint grid positions p designs observations acc T w = (w', Ok acc') ->
  exists (data_dict : gmap string Tensor) (samples : Tensor),
    nuts_sample (mcmc_of p) T data_dict = Ok samples
    /\ (forall t : nat, 0 <= Z.of_nat t < T ->
          data_dict !! ("xi" +:+ pretty (Z.of_nat t + 1))
          = Torch.unsqueeze0 <$> designs !! t
          /\ is_Some (designs !! t)
          /\ data_dict !! ("y" +:+ pretty (Z.of_nat t + 1))
             = Torch.unsqueeze0 <$> observations !! t
          /\ is_Some (observations !! t))
    /\ (forall key, is_Some (data_dict !! key) ->
          exists t : nat, 0 <= Z.of_nat t < T
            /\ (key = "xi" +:+ pretty (Z.of_nat t + 1)
                \/ key = "y" +:+ pretty (Z.of_nat t + 1))).
Proof.
  intros H. apply checkpoint_ok in H.
  destruct H as (data_dict & samples & m & f & Hd & Hs & _).
  exists data_dict, samples. split; [exact Hs|].
  unfold Py.range in Hd. apply build_data_dict_seq in Hd.
  destruct Hd as (Hlen & Hin & Hout & Hdom). split.
  - intros t Ht. destruct (Hin t) as [Hxi Hy]; [lia|].
    destruct Hlen as [Hz|[Hd Ho]]; [lia|].
    repeat split; try assumption; apply lookup_lt_is_Some_2; lia.
  - intros key Hsome. apply Hdom in Hsome.
    destruct Hsome as [[x Hx]|(t & Ht & Hk)].
    + rewrite lookup_empty in Hx. discriminate.
    + exists t. split; [lia|exact Hk].
Qed.

(** X8: a checkpoint beyond the designs or the observations at hand
    raises [IndexError], before the sampler is run. *)
Theorem checkpoint_beyond_rollout (grid : list Tensor)
    (positions : list (list Q)) (p : Z) (designs observations : list Tensor)
    (acc : list Tensor * list Tensor) (T : Z) (w : World) :
  Z.of_nat (length designs) < T \/ Z.of_nat (length observations) < T ->
  checkpoint grid positions p designs observations acc T w
  = (mkWorld T (files w) (plt_log w), Raise IndexError).
Proof.
  intros Hshort.
  unfold checkpoint, mbind, M_bind, bind, get_T, set_T, lift. simpl.
  unfold Py.range. rewrite build_data_dict_short by lia. reflexivity.
Qed.

End Conditioning.


(** ** The density grid and the MAP point *)

Section Shapes.

Context {L : Libs}.

Lemma extract_map_shapes (grid : list Tensor) (positions : list (list Q))
    (p : Z) (samples m f : Tensor) :
  extract_map grid positions p samples = Ok (m, f) ->
  shape m = [length positions]
  /\ length (data m) = length positions
  /\ Py.index grid 0 = Ok (mkTensor (shape f) (default [] (data <$> head grid)))
  /\ length (data f) = length (default [] (head positions)).
Proof.
  unfold extract_map. intros H.
  res_inv H as by_dim Hdim. res_inv H as values Hv.
  res_inv H as kernel Hk. res_inv H as j Hj. res_inv H as g0 Hg.
  injection H as <- <-. simpl.
  unfold Np.column, Np.columns. rewrite !length_map, length_seq.
  repeat split; try reflexivity.
  rewrite Hg. destruct grid as [|g grid]; [discriminate Hg|].
  vm_compute in Hg. injection Hg as <-. destruct g; reflexivity.
Qed.

(** X9: the density grid a checkpoint appends to [f_list] has one axis
    per latent dimension, each as long as the number of bins, and holds
    one value per grid point; the MAP point has one coordinate per
    latent dimension. *)
Theorem density_grid_shape (args : Args) (ho_p : Z) (s : Setup)
    (w0 w1 : World) (designs observations : list Tensor)
    (acc acc' : list Tensor * list Tensor) (T : Z) (w w' : World) :
  prepare args ho_p w0 = (w1, Ok s) ->
  checkpoint (grid s) (positions s) (ho_p * 1) designs observations acc T w
    = (w', Ok acc') ->
  exists m f,
    acc' = (acc.1 ++ [m], acc.2 ++ [f])
    /\ shape f = repeat (Z.to_nat (Z.abs (bin args))) (Z.to_nat ho_p)
    /\ length (data f) = (Z.to_nat (Z.abs (bin args)) ^ Z.to_nat ho_p)%nat
    /\ shape m = [Z.to_nat ho_p]
    /\ length (data m) = Z.to_nat ho_p.
Proof.
  intros Hprep Hrun. apply prepare_ok in Hprep.
  destruct Hprep as (_ & _ & _ & Hgrid & Hpos & Hne & _).
  apply checkpoint_ok in Hrun.
  destruct Hrun as (data_dict & samples & m & f & _ & _ & Hex & -> & _).
  apply extract_map_shapes in Hex. destruct Hex as (Hm & Hdm & Hf & Hdf).
  exists m, f. split; [reflexivity|].
  assert (Hlen : length (positions s) = Z.to_nat ho_p).
  { rewrite Hpos, Hgrid, make_grid_data, length_map.
    unfold Py.range. rewrite length_seq. f_equal. lia. }
  rewrite Hpos, Hgrid, make_grid_data in Hdf, Hne.
  rewrite Hgrid in Hf. unfold make_grid, Py.range in Hf, Hdf, Hne.
  replace (ho_p * 1) with ho_p in * by lia.
  destruct (Z.to_nat ho_p) as [|p'] eqn:Ep; [contradiction Hne; reflexivity|].
  cbn [seq map head default] in Hf, Hdf. unfold id in Hdf.
  rewrite mgrid_ravel_length in Hdf.
  vm_compute Py.index in Hf. injection Hf as Hf. 
  rewrite Hm, Hdm, Hlen. unfold Np.mgrid_size in *.
  repeat split; try reflexivity.
  - rewrite <- Hf. reflexivity.
  - exact Hdf.
Qed.

Lemma col_low_rank (t : Tensor) (i : nat) :
  (length (shape t) < 2)%nat -> Torch.col t i = Raise IndexError.
Proof.
  unfold Torch.col. destruct (shape t) as [|n [|d [|x r]]]; simpl; try lia;
    reflexivity.
Qed.

(** X10: the extraction needs the samples to squeeze to a table: with a
    single sample, or with a latent of one dimension, [posterior[:, i]]
    raises [IndexError]. *)
Theorem extract_map_needs_a_table (grid : list Tensor)
    (positions : list (list Q)) (p : Z) (samples : Tensor) (N d : nat) :
  1 <= p ->
  shape samples = [N; 1%nat; d] ->
  N = 1%nat \/ d = 1%nat ->
  extract_map grid positions p samples = Raise IndexError.
Proof.
  intros Hp Hshape Hone. unfold extract_map.
  assert (Hlow : (length (shape (Torch.squeeze samples)) < 2)%nat).
  { unfold Torch.squeeze. cbn [shape]. rewrite Hshape.
    rewrite !filter_cons, filter_nil.
    destruct Hone as [-> | ->];
      repeat match goal with
             | |- context [decide ?P] => destruct (decide P)
             end; cbn [length]; try lia; congruence. }
  unfold Py.range. destruct (Z.to_nat p) as [|p'] eqn:Ep; [lia|].
  cbn [seq mapM]. rewrite col_low_rank by exact Hlow. reflexivity.
Qed.

End Shapes.


(** ** What [plot_vae_decode] draws *)

Lemma bind_run {A B} (m : M A) (k : A -> M B) (w w1 : World) (a : A)
    (r : World * Res B) :
  m w = (w1, Ok a) -> k a w1 = r -> (m ≫= k) w = r.
Proof. intros Hm Hk. unfold mbind, M_bind, bind. rewrite Hm. exact Hk. Qed.

Lemma bind_run_raise {A B} (m : M A) (k : A -> M B) (w w1 : World) (e : Exn) :
  m w = (w1, Raise e) -> (m ≫= k) w = (w1, Raise e).
Proof. intros Hm. unfold mbind, M_bind, bind. rewrite Hm. reflexivity. Qed.

Lemma subplots_grid (nrow : nat) (w : World) :
  (2 <= nrow)%nat ->
  Plt.subplots nrow 4 w
  = (mkWorld (ho_T w) (files w) (plt_log w ++ [Subplots nrow 4]),
     Ok (Axes2D nrow 4)).
Proof.
  intros Hn. unfold Plt.subplots.
  destruct nrow as [|[|n]]; try lia. reflexivity.
Qed.

(** Hiding the axes of the rows [a], ..., [a + n - 1] of a grid. *)
Lemma hide_rows_run (nrow n a : nat) (w : World) :
  (a + n <= nrow)%nat ->
  for_each (seq a n) (fun r =>
    for_each (seq 0 4) (fun c =>
      lift (Plt.index2 (Axes2D nrow 4) r c);; plt (HideAxes r c))) w
  = (mkWorld (ho_T w) (files w) (plt_log w ++ hide_calls a n 4), Ok tt).
Proof.
  revert a w. induction n as [|n IH]; intros a w Ha.
  - unfold hide_calls. simpl. rewrite app_nil_r. destruct w; reflexivity.
  - unfold for_each in *. cbn [seq for_acc].
    eapply bind_run.
    + assert (Hlt : (a <? nrow)%nat = true) by (apply Nat.ltb_lt; lia).
      unfold mbind, M_bind, bind, lift, plt, mret, M_ret, ret, Plt.index2.
      simpl. rewrite Hlt. simpl. reflexivity.
    + rewrite IH by lia. simpl. unfold hide_calls. cbn [seq flat_map map].
      rewrite <- !app_assoc. reflexivity.
Qed.

Lemma remove_cells_run (r : nat) (cs : list nat) (w : World) :
  for_each (map (fun j => (r, j)) cs) (fun '(r0, c) => plt (RemoveAx r0 c)) w
  = (mkWorld (ho_T w) (files w) (plt_log w ++ map (RemoveAx r) cs), Ok tt).
Proof.
  revert w. induction cs as [|c cs IH]; intros w.
  - simpl. rewrite app_nil_r. destruct w; reflexivity.
  - unfold for_each in *. cbn [map for_acc].
    eapply bind_run; [reflexivity|].
    rewrite IH. simpl. rewrite <- app_assoc. reflexivity.
Qed.

Section Panels.

Context {L : Libs}.

(** The scratch file after the embeddings [l] have gone through it. *)
Lemma scratch_deleted (tmp : string) (l : list Tensor)
    (fs : gmap string (list Byte.byte)) :
  delete tmp (foldl (fun f e => <[tmp := png_encode (decoder_net e)]> f) fs l)
  = delete tmp fs.
Proof.
  revert fs. induction l as [|e r IH]; intros fs; simpl; [reflexivity|].
  rewrite IH. apply delete_insert_eq.
Qed.

Lemma scratch_present (tmp : string) (l : list Tensor)
    (fs : gmap string (list Byte.byte)) :
  l <> [] ->
  is_Some (foldl (fun f e => <[tmp := png_encode (decoder_net e)]> f) fs l !! tmp).
Proof.
  revert fs. induction l as [|e r IH]; intros fs Hne; [congruence|].
  simpl. destruct r as [|e' r'].
  - simpl. rewrite lookup_insert_eq. eauto.
  - apply IH. discriminate.
Qed.

(** The loop over the embeddings [l], the first in panel [i], on a grid
    with room for all of them. *)
Lemma panels_run (dir : string) (T_list : list Z) (nrow : nat)
    (l : list Tensor) (i : nat) (acc : option string) (w : World) :
  (i + length l <= 4 * nrow)%nat ->
  for_acc (zip (seq i (length l)) l) acc
    (fun (_ : option string) '(i, embedding) =>
       recon ← decode embedding;
       save_image recon (Os.path_join dir "temp.png");;
       img ← imread (Os.path_join dir "temp.png");
       lift (Plt.index2 (Axes2D nrow 4) (i / 4)%nat (i mod 4)%nat);;
       plt (Imshow img);;
       (if (i <? length T_list)%nat
        then Ti ← lift (Py.index T_list (Z.of_nat i));
             plt (SetTitle (CapExperiment Ti))
        else plt (SetTitle CapTarget));;
       ret (Some (Os.path_join dir "temp.png"))) w
  = (mkWorld (ho_T w)
       (foldl (fun f e => <[Os.path_join dir "temp.png"
                            := png_encode (decoder_net e)]> f) (files w) l)
       (plt_log w ++ panel_calls T_list i l),
     Ok (match l with [] => acc | _ => Some (Os.path_join dir "temp.png") end)).
Proof.
  revert i acc w. induction l as [|e r IH]; intros i acc w Hroom.
  - simpl. rewrite app_nil_r. destruct w; reflexivity.
  - cbn [length seq zip zip_with for_acc]. cbn [length] in Hroom.
    eapply bind_run.
    + assert (Hrow : ((i / 4 <? nrow) && (i mod 4 <? 4))%nat = true).
      { apply andb_true_iff. split; apply Nat.ltb_lt.
        - apply Nat.Div0.div_lt_upper_bound. lia.
        - apply Nat.mod_upper_bound. lia. }
      assert (Htitle :
        forall w0,
          (if (i <? length T_list)%nat
           then Ti ← lift (Py.index T_list (Z.of_nat i));
                plt (SetTitle (CapExperiment Ti))
           else plt (SetTitle CapTarget)) w0
          = (mkWorld (ho_T w0) (files w0)
               (plt_log w0 ++ [SetTitle (caption_at T_list i)]), Ok tt)).
      { intros w0. unfold caption_at.
        destruct (Nat.ltb_spec i (length T_list)) as [Hlt|Hge].
        - destruct (lookup_lt_is_Some_2 T_list i Hlt) as [Ti HTi].
          rewrite HTi. eapply bind_run; [|reflexivity].
          unfold lift. rewrite index_nat, HTi. reflexivity.
        - rewrite lookup_ge_None_2 by lia. reflexivity. }
      eapply bind_run; [reflexivity|].
      eapply bind_run; [reflexivity|].
      eapply bind_run.
      { unfold imread. eapply bind_run; [|reflexivity].
        unfold Os.read, Os.write. cbn [files]. rewrite lookup_insert_eq.
        reflexivity. }
      eapply bind_run.
      { unfold lift, Plt.index2. rewrite Hrow. reflexivity. }
      eapply bind_run; [reflexivity|].
      eapply bind_run; [apply Htitle|reflexivity].
    + rewrite IH by lia. cbn [ho_T files plt_log foldl panel_calls].
      f_equal.
      * f_equal. rewrite <- !app_assoc. reflexivity.
      * destruct r; reflexivity.
Qed.

End Panels.


Lemma Forall_enumerate_from {A} (P : nat * A -> Prop) (l : list A) (a i : nat) :
  Forall P (zip (seq a (length l)) l) ->
  (i < length l)%nat -> exists x, P ((a + i)%nat, x).
Proof.
  revert a i. induction l as [|x r IH]; intros a i H Hi; [simpl in Hi; lia|].
  cbn [length seq zip zip_with] in H. apply Forall_cons in H.
  destruct H as [Hx Hr]. destruct i as [|i].
  - exists x. rewrite Nat.add_0_r. exact Hx.
  - destruct (IH (S a) i Hr) as [y Hy]; [simpl in Hi; lia|].
    exists y. replace (a + S i)%nat with (S a + i)%nat by lia. exact Hy.
Qed.

Section Tiling.

Context {L : Libs}.

Lemma plot_vae_decode_run (embedding_list : list Tensor)
    (dir mi_estimator : string) (T_list : list Z) (index p : Z) (type : string)
    (w : World) :
  (4 <= length T_list)%nat ->
  embedding_list <> [] ->
  (length embedding_list <= 4 * (length T_list / 4 + 1))%nat ->
  plot_vae_decode embedding_list dir mi_estimator T_list index p type w
  = (tiled embedding_list dir mi_estimator T_list index p type w, Ok tt).
Proof.
  intros HT Hne Hroom. unfold plot_vae_decode. cbv zeta.
  assert (Hrows : (2 <= length T_list / 4 + 1)%nat).
  { pose proof (Nat.Div0.div_le_mono 4 (length T_list) 4 HT).
    assert (4 / 4 = 1)%nat by reflexivity. lia. }
  eapply bind_run; [apply subplots_grid; exact Hrows|].
  eapply bind_run; [apply panels_run; simpl; exact Hroom|].
  eapply bind_run; [apply hide_rows_run; lia|].
  eapply bind_run; [reflexivity|].
  eapply bind_run; [apply remove_cells_run|].
  destruct embedding_list as [|e r]; [congruence|].
  eapply bind_run.
  { unfold Os.remove. cbn [files].
    destruct (scratch_present (Os.path_join dir "temp.png") (e :: r) (files w))
      as [x Hx]; [discriminate|].
    rewrite Hx. reflexivity. }
  eapply bind_run; [reflexivity|].
  unfold savefig. eapply bind_run; [reflexivity|].
  eapply bind_run; [reflexivity|].
  unfold Os.write, tiled. cbn [ho_T files plt_log].
  rewrite scratch_deleted. unfold remove_calls.
  rewrite <- !app_assoc. reflexivity.
Qed.

Lemma plot_vae_decode_ok_room (embedding_list : list Tensor)
    (dir mi_estimator : string) (T_list : list Z) (index p : Z) (type : string)
    (w w' : World) :
  plot_vae_decode embedding_list dir mi_estimator T_list index p type w
    = (w', Ok tt) ->
  embedding_list <> []
  /\ (length embedding_list <= 4 * (length T_list / 4 + 1))%nat.
Proof.
  intros H. pose proof (plot_vae_decode_ok_four _ _ _ _ _ _ _ _ _ H) as HT.
  unfold plot_vae_decode in H. cbv zeta in H.
  assert (Hrows : (2 <= length T_list / 4 + 1)%nat).
  { pose proof (Nat.Div0.div_le_mono 4 (length T_list) 4 HT).
    assert (4 / 4 = 1)%nat by reflexivity. lia. }
  run_inv H as axs w1 Haxs. rewrite subplots_grid in Haxs by exact Hrows.
  injection Haxs as <- <-.
  run_inv H as tmp w2 Hloop.
  split.
  - intros ->. simpl in Hloop. apply ret_ok in Hloop. destruct Hloop as [-> ->].
    run_inv H as u1 w3 Hhide. run_inv H as cells w4 Hcells.
    run_inv H as u2 w5 Hrm. run_inv H as u3 w6 Hremove. discriminate Hremove.
  - apply (for_acc_ok
             (fun done (_ : option string) _ =>
                Forall (fun ie : nat * Tensor =>
                          (ie.1 / 4 < length T_list / 4 + 1)%nat) done)
             _) with (done := []) in Hloop.
    + unfold enumerate in Hloop. cbn [app] in Hloop.
      destruct (Nat.eq_dec (length embedding_list) 0%nat) as [E0|Hpos].
      { destruct embedding_list; [|discriminate E0]. simpl. lia. }
      destruct (Forall_enumerate_from _ _ 0%nat (length embedding_list - 1)%nat Hloop)
        as [x Hx]; [lia|].
      cbn [fst Nat.add] in Hx.
      pose proof (Nat.div_mod_eq (length embedding_list - 1)%nat 4%nat).
      pose proof (Nat.mod_upper_bound (length embedding_list - 1)%nat 4%nat). lia.
    + intros done [i e] acc wa acc' wb Hdone Hbody.
      apply Forall_app. split; [exact Hdone|]. constructor; [|constructor].
      run_inv Hbody as recon wc Hc.
      run_inv Hbody as u1 wd Hd.
      run_inv Hbody as img we He.
      lift_inv Hbody as u2 Hidx.
      unfold Plt.index2 in Hidx. simpl.
      match type of Hidx with
      | context [((?a <? ?b)%nat && _)] =>
          destruct (Nat.ltb_spec a b) as [Hok|Hbad]
      end; [exact Hok | cbn [andb] in Hidx; discriminate Hidx].
    + constructor.
Qed.

(** X11: a call of [plot_vae_decode] that returns was given at least
    one embedding, since the scratch path is bound by the first pass of
    the loop, and no more embeddings than the rows of four panels hold:
    with [len(T_list) // 4 + 1] rows there is no panel for a further
    one. *)
Theorem plot_vae_decode_needs_room (embedding_list : list Tensor)
    (dir mi_estimator : string) (T_list : list Z) (index p : Z) (type : string)
    (w w' : World) :
  plot_vae_decode embedding_list dir mi_estimator T_list index p type w
    = (w', Ok tt) ->
  (1 <= length embedding_list <= 4 * (length T_list / 4 + 1))%nat.
Proof.
  intros H.
  apply plot_vae_decode_ok_room in H. destruct H as [Hne Hroom].
  destruct embedding_list; [congruence|]. simpl in *. lia.
Qed.

(** X12: a call of [plot_vae_decode] that returns has, in this order,
    made the grid of panels, shown for every embedding the image read
    back from the scratch file under its caption (the checkpoint, or
    [Target] past the last checkpoint), hidden the axes of every panel,
    removed the panels of the last row from column
    [len(embedding_list) % 4] on, and saved the figure; of the files it
    has only deleted the scratch file and written the figure. *)
Theorem plot_vae_decode_draws (embedding_list : list Tensor)
    (dir mi_estimator : string) (T_list : list Z) (index p : Z) (type : string)
    (w w' : World) :
  plot_vae_decode embedding_list dir mi_estimator T_list index p type w
    = (w', Ok tt) ->
  w' = tiled embedding_list dir mi_estimator T_list index p type w.
Proof.
  intros H.
  pose proof (plot_vae_decode_ok_four _ _ _ _ _ _ _ _ _ H) as HT.
  pose proof (plot_vae_decode_ok_room _ _ _ _ _ _ _ _ _ H) as [Hne Hroom].
  rewrite plot_vae_decode_run in H by assumption. congruence.
Qed.

End Tiling.


(** ** The panels that are removed *)

Lemma filter_remove_hide (a n ncol : nat) :
  filter (fun c => is_remove c = true) (hide_calls a n ncol) = [].
Proof.
  assert (Hrow : forall r cs,
             filter (fun c => is_remove c = true) (map (HideAxes r) cs) = []).
  { intros r cs. induction cs as [|c cs IHc]; [reflexivity|].
    cbn [map]. rewrite filter_cons_False by (simpl; discriminate). exact IHc. }
  unfold hide_calls. revert a. induction n as [|n IH]; intros a; [reflexivity|].
  cbn [seq flat_map]. rewrite filter_app, IH, app_nil_r. apply Hrow.
Qed.

Lemma filter_remove_none (l : list PlotCall) :
  Forall (fun c => is_remove c = false) l ->
  filter (fun c => is_remove c = true) l = [].
Proof.
  induction 1 as [|c l Hc Hl IH]; [reflexivity|].
  rewrite filter_cons_False by congruence. exact IH.
Qed.

Lemma filter_remove_remove (nrow ncol k : nat) :
  filter (fun c => is_remove c = true) (remove_calls nrow ncol k)
  = remove_calls nrow ncol k.
Proof.
  unfold remove_calls. induction (seq k (ncol - k)) as [|c cs IH]; [reflexivity|].
  cbn [map]. rewrite filter_cons_True by reflexivity. f_equal. exact IH.
Qed.

Section Removed.

Context {L : Libs}.

Lemma filter_remove_panels (T_list : list Z) (i : nat) (l : list Tensor) :
  filter (fun c => is_remove c = true) (panel_calls T_list i l) = [].
Proof.
  revert i. induction l as [|e r IH]; intros i; [reflexivity|].
  cbn [panel_calls]. rewrite !filter_cons_False by (simpl; discriminate).
  apply IH.
Qed.

(** X13: the clean-up at the end removes a panel that shows an
    embedding exactly when the embeddings fill the grid: then all four
    panels of the last row go, with the images in them.  Embedding [i]
    is shown in panel [(i // 4, i % 4)]. *)
Theorem full_grid_loses_last_row (embedding_list : list Tensor)
    (dir mi_estimator : string) (T_list : list Z) (index p : Z) (type : string)
    (w w' : World) (i : nat) :
  plot_vae_decode embedding_list dir mi_estimator T_list index p type w
    = (w', Ok tt) ->
  Forall (fun c => is_remove c = false) (plt_log w) ->
  (i < length embedding_list)%nat ->
  RemoveAx (i / 4) (i mod 4) ∈ plt_log w'
  <-> (length embedding_list = 4 * (length T_list / 4 + 1)
       /\ length embedding_list - 4 <= i)%nat.
Proof.
  intros H Hlog Hi.
  pose proof (plot_vae_decode_ok_room _ _ _ _ _ _ _ _ _ H) as [Hne Hroom].
  pose proof (plot_vae_decode_ok_four _ _ _ _ _ _ _ _ _ H) as HT.
  rewrite plot_vae_decode_run in H by assumption.
  injection H as <-.
  set (nrow := (length T_list / 4 + 1)%nat) in *.
  set (k := (length embedding_list mod 4)%nat).
  assert (Hmem : RemoveAx (i / 4) (i mod 4)
                 ∈ plt_log (tiled embedding_list dir mi_estimator T_list index p
                              type w)
                 <-> RemoveAx (i / 4) (i mod 4) ∈ remove_calls nrow 4 k).
  { assert (Hf : filter (fun c => is_remove c = true)
                    (plt_log (tiled embedding_list dir mi_estimator T_list index
                                p type w))
                  = remove_calls nrow 4 k).
    { unfold tiled. cbn [plt_log]. fold nrow. fold k.
      rewrite !filter_app, filter_remove_panels, filter_remove_hide,
        filter_remove_remove.
      rewrite (filter_remove_none _ Hlog).
      rewrite !filter_cons_False by (simpl; discriminate).
      rewrite filter_nil, app_nil_r. reflexivity. }
    split; intros Hin.
    - rewrite <- Hf. apply list_elem_of_filter. split; [reflexivity|exact Hin].
    - rewrite <- Hf in Hin. apply list_elem_of_filter in Hin. apply Hin. }
  rewrite Hmem. unfold remove_calls.
  pose proof (Nat.div_mod_eq i 4) as Hdi.
  pose proof (Nat.mod_upper_bound i 4 ltac:(lia)) as Hmi.
  pose proof (Nat.div_mod_eq (length embedding_list) 4) as Hdl.
  pose proof (Nat.mod_upper_bound (length embedding_list) 4 ltac:(lia)) as Hml.
  fold k in Hdl, Hml.
  assert (Hn1 : (1 <= nrow)%nat) by (unfold nrow; lia).
  split.
  - intros Hin. apply list_elem_of_In, in_map_iff in Hin.
    destruct Hin as (c & Hc & Hin). injection Hc as Hr Hcc.
    change (Nat.divmod i 3 0 3).1 with (i / 4)%nat in Hr.
    change (3 - (Nat.divmod i 3 0 3).2)%nat with (i mod 4)%nat in Hcc.
    apply in_seq in Hin. lia.
  - intros [Hfull Hlast]. apply list_elem_of_In, in_map_iff.
    exists (i mod 4)%nat. split.
    + f_equal. lia.
    + apply in_seq. lia.
Qed.

End Removed.


(** ** What [plot_posterior_grid] draws *)

Lemma filter_contour_snoc (l : list PlotCall) (c : PlotCall) :
  filter (fun c => is_contour c = true) (l ++ [c])
  = filter (fun c => is_contour c = true) l
    ++ (if is_contour c then [c] else []).
Proof.
  rewrite filter_app. f_equal. rewrite filter_cons, filter_nil.
  destruct (is_contour c); destruct (decide _); congruence.
Qed.

Section ContourPanels.

Context {L : Libs}.

(** Collecting the coordinates of the designs leaves the world alone. *)
Lemma collect_designs_world (l : list Tensor) (acc ds : list Q * list Q)
    (w w' : World) :
  for_acc l acc
    (fun '(d0, d1) design =>
       a ← lift (scalar_at (Torch.squeeze design) 0);
       b ← lift (scalar_at (Torch.squeeze design) 1);
       ret (d0 ++ [a], d1 ++ [b])) w = (w', Ok ds) ->
  w' = w.
Proof.
  intros H. symmetry.
  eapply (preserves_run (fun w0 => w = w0)); [|reflexivity|exact H].
  repeat pres_step.
Qed.

(** The loop over the checkpoints [l], the first in panel [a]. *)
Lemma contour_loop_ok (axs : Axs) (pdf_post_list designs : list Tensor)
    (true_theta : Tensor) (l : list Z) (a : nat) (w w' : World) :
  for_acc (zip (seq a (length l)) l) tt
    (fun (_ : unit) '(i, T) =>
          pdf ← lift (Py.index pdf_post_list (Z.of_nat i));
          vmax ← lift (Np.amax (data pdf));
          lift (Plt.index1 axs i);;
          row ← lift (Torch.get true_theta 0);
          x ← lift (scalar_at row 0);
          y ← lift (scalar_at row 1);
          plt (Scatter [x] [y]);;
          ds ← for_acc (Py.prefix designs T) ([], []) (fun '(d0, d1) design =>
            a ← lift (scalar_at (Torch.squeeze design) 0);
            b ← lift (scalar_at (Torch.squeeze design) 1);
            ret (d0 ++ [a], d1 ++ [b]));
          plt (Scatter ds.1 ds.2);;
          plt (Contourf pdf);;
          plt (Contour pdf);;
          plt (SetTitle (CapExperiment T))) w = (w', Ok tt) ->
  (l = [] \/ (a + length l <= length pdf_post_list)%nat)
  /\ (l = [] \/ exists n, axs = Axes1D n /\ (a + length l <= n)%nat)
  /\ ho_T w' = ho_T w
  /\ files w' = files w
  /\ filter (fun c => is_contour c = true) (plt_log w')
     = filter (fun c => is_contour c = true) (plt_log w)
       ++ flat_map (fun pdf => [Contourf pdf; Contour pdf])
            (take (length l) (drop a pdf_post_list)).
Proof.
  revert a w. induction l as [|T r IH]; intros a w H.
  - simpl in H. apply ret_ok in H. destruct H as [-> _].
    simpl. rewrite app_nil_r. auto.
  - cbn [length seq zip zip_with for_acc] in H.
    run_inv H as u0 w1 Hbody. destruct u0. cbn beta iota in Hbody.
    lift_inv Hbody as pdf Hpdf. rewrite index_nat in Hpdf.
    destruct (pdf_post_list !! a) as [pdf0|] eqn:Ea; [|discriminate Hpdf].
    injection Hpdf as ->.
    lift_inv Hbody as vmax Hvmax.
    lift_inv Hbody as u1 Hidx.
    lift_inv Hbody as row Hrow.
    lift_inv Hbody as x Hx.
    lift_inv Hbody as y Hy.
    run_inv Hbody as u2 wa Hsc. apply plt_ok in Hsc. subst wa.
    run_inv Hbody as ds wb Hds. apply collect_designs_world in Hds. subst wb.
    run_inv Hbody as u3 wc Hsc2. apply plt_ok in Hsc2. subst wc.
    run_inv Hbody as u4 wd Hcf. apply plt_ok in Hcf. subst wd.
    run_inv Hbody as u5 we Hc. apply plt_ok in Hc. subst we.
    apply plt_ok in Hbody. subst w1.
    apply IH in H. destruct H as (Hlen & Haxs & HT & Hfiles & Hlog).
    cbn [ho_T files plt_log] in HT, Hfiles, Hlog.
    pose proof (lookup_lt_Some _ _ _ Ea) as Hlt.
    assert (Hax : exists n, axs = Axes1D n /\ (a < n)%nat).
    { unfold Plt.index1 in Hidx. destruct axs as [|n|nr nc]; try discriminate Hidx.
      - exists n. split; [reflexivity|].
        destruct (Nat.ltb_spec a n); [assumption|discriminate Hidx].
      - destruct (a <? nr)%nat; discriminate Hidx. }
    split; [|split; [|split; [exact HT|split; [exact Hfiles|]]]].
    + right. destruct Hlen as [->|Hlen]; simpl; lia.
    + right. destruct Hax as (n & -> & Han).
      destruct Haxs as [->|(n' & Hn' & Hle)]; [exists n; simpl; split; [reflexivity|lia]|].
      injection Hn' as <-. exists n. split; [reflexivity|simpl; lia].
    + rewrite Hlog. rewrite !filter_contour_snoc. cbn [is_contour].
      rewrite !app_nil_r, <- !app_assoc. f_equal.
      rewrite (drop_S _ _ _ Ea). cbn [length take flat_map app]. reflexivity.
Qed.

(** X14: [plot_posterior_grid] returns only for a grid of exactly two
    axes, at least two checkpoints (one panel alone is no array of
    axes), and a density for every checkpoint. *)
Theorem plot_posterior_grid_needs (limits : Q * Q)
    (grid pdf_post_list designs : list Tensor) (T_to_plot : list Z)
    (mi_estimator : string) (true_theta : Tensor) (dir : string) (index : Z)
    (w w' : World) :
  plot_posterior_grid limits grid pdf_post_list designs T_to_plot mi_estimator
    true_theta dir index w = (w', Ok tt) ->
  length grid = 2%nat
  /\ (2 <= length T_to_plot <= length pdf_post_list)%nat.
Proof.
  unfold plot_posterior_grid. intros H.
  destruct grid as [|xx [|yy [|zz grid]]]; try discriminate H.
  split; [reflexivity|].
  run_inv H as axs w1 Haxs.
  run_inv H as u1 w2 Hloop. destruct u1.
  lift_inv H as T_last Hlast. apply index_last_nonempty in Hlast.
  unfold for_each, enumerate in Hloop. cbn beta in Hloop.
  apply contour_loop_ok in Hloop.
  destruct Hloop as (Hlen & Hax & _).
  destruct Hlen as [?|Hlen]; [contradiction|].
  destruct Hax as [?|(n & -> & Hn)]; [contradiction|].
  split; [|lia].
  unfold Plt.subplots in Haxs.
  destruct (length T_to_plot) as [|[|m]] eqn:En; simpl in Haxs.
  - destruct T_to_plot; [contradiction|discriminate En].
  - run_inv Haxs as u w0 H0. apply ret_ok in Haxs. destruct Haxs as [_ Haxs].
    discriminate Haxs.
  - lia.
Qed.

(** X15: a call of [plot_posterior_grid] that returns has drawn, in the
    order of the checkpoints, the filled contour and the contour lines of
    each checkpoint's density and no other contour, and has then saved
    the figure under a name that carries the last checkpoint; it has
    written no other file. *)
Theorem plot_posterior_grid_draws (limits : Q * Q)
    (grid pdf_post_list designs : list Tensor) (T_to_plot : list Z)
    (mi_estimator : string) (true_theta : Tensor) (dir : string) (index : Z)
    (w w' : World) :
  plot_posterior_grid limits grid pdf_post_list designs T_to_plot mi_estimator
    true_theta dir index w = (w', Ok tt) ->
  exists T_last path,
    Py.index T_to_plot (-1) = Ok T_last
    /\ path = dir +:+ "/2dim_" +:+ mi_estimator +:+ "_" +:+ pretty T_last
              +:+ "_" +:+ pretty index +:+ "progress.png"
    /\ filter (fun c => is_contour c = true) (plt_log w')
       = filter (fun c => is_contour c = true) (plt_log w)
         ++ flat_map (fun pdf => [Contourf pdf; Contour pdf])
              (take (length T_to_plot) pdf_post_list)
    /\ last (plt_log w') = Some (Savefig path)
    /\ files w' = <[path := render_png (plt_log w')]> (files w)
    /\ ho_T w' = ho_T w.
Proof.
  unfold plot_posterior_grid. intros H.
  destruct grid as [|xx [|yy [|zz grid]]]; try discriminate H.
  run_inv H as axs w1 Haxs.
  assert (Hw1 : w1 = mkWorld (ho_T w) (files w)
                       (plt_log w ++ [Subplots 1 (length T_to_plot)])).
  { unfold Plt.subplots in Haxs.
    destruct ((1 =? 0)%nat || (length T_to_plot =? 0)%nat); [discriminate Haxs|].
    run_inv Haxs as u w0 H0. apply plt_ok in H0. apply ret_ok in Haxs.
    destruct Haxs as [-> _]. exact H0. }
  run_inv H as u1 w2 Hloop. destruct u1.
  lift_inv H as T_last Hlast.
  unfold for_each, enumerate in Hloop. cbn beta in Hloop.
  apply contour_loop_ok in Hloop.
  destruct Hloop as (_ & _ & HT & Hfiles & Hlog).
  run_inv H as u2 w3 Hsup. apply plt_ok in Hsup. subst w3.
  apply savefig_ok in H. destruct H as (HT' & Hfiles' & Hlog').
  cbn [ho_T files plt_log] in HT', Hfiles', Hlog'.
  exists T_last. eexists. split; [exact Hlast|]. split; [reflexivity|].
  subst w1. cbn [ho_T files plt_log] in HT, Hfiles, Hlog.
  split; [|split; [|split; [|congruence]]].
  - rewrite Hlog', !filter_contour_snoc. cbn [is_contour].
    rewrite !app_nil_r, Hlog, filter_contour_snoc. cbn [is_contour].
    rewrite app_nil_r, drop_0. reflexivity.
  - rewrite Hlog'. apply last_snoc.
  - rewrite Hfiles', Hlog', Hfiles. reflexivity.
Qed.

End ContourPanels.


(** ** The files of the roll-out block *)

Lemma string_app_inv_tail (a b c : string) : a +:+ c = b +:+ c -> a = b.
Proof.
  intros H. apply (f_equal String.list_ascii_of_string) in H.
  rewrite !list_ascii_app in H. apply app_inv_tail in H.
  rewrite <- (String.string_of_list_ascii_of_string a),
          <- (String.string_of_list_ascii_of_string b), H.
  reflexivity.
Qed.

Lemma path_join_inj (dir a b : string) :
  String.prefix "/" a = false -> String.prefix "/" b = false ->
  Os.path_join dir a = Os.path_join dir b -> a = b.
Proof.
  unfold Os.path_join. intros -> ->.
  destruct (String.eqb dir ""); [auto|].
  destruct (String.prefix "/" (String.rev dir)); intros H.
  - apply (inj (String.app dir)) in H. exact H.
  - apply (inj (String.app dir)) in H. apply (inj (String.app "/")) in H. exact H.
Qed.

Lemma recon_name_inj (dir : string) (t t' : nat) :
  Os.path_join dir ("target_0_recon_" +:+ pretty (Z.of_nat t) +:+ ".png")
  = Os.path_join dir ("target_0_recon_" +:+ pretty (Z.of_nat t') +:+ ".png") ->
  t = t'.
Proof.
  intros H. apply path_join_inj in H; [|reflexivity..].
  apply (inj (String.app "target_0_recon_")) in H.
  apply string_app_inv_tail in H. apply (inj pretty) in H. lia.
Qed.

Lemma recon_name_not_target (dir : string) (t : nat) :
  Os.path_join dir ("target_0_recon_" +:+ pretty (Z.of_nat t) +:+ ".png")
  <> Os.path_join dir "target_0.png".
Proof.
  intros H. apply path_join_inj in H; [|reflexivity..]. discriminate H.
Qed.

Section RolloutFiles.

Context {L : Libs}.

(** The listing loop over the steps [a], ..., [a + n - 1]. *)
Lemma list_loop_ok (out : string) (designs observations : list Tensor)
    (n a : nat) (acc runs : list Tensor * list Q) (w w' : World) :
  for_acc (seq a n) acc (list_step out designs observations) w = (w', Ok runs) ->
  ho_T w' = ho_T w
  /\ plt_log w' = plt_log w
  /\ (forall t, (a <= t < a + n)%nat -> (t mod 5 = 0)%nat ->
        exists d d0,
          designs !! t = Some d /\ Torch.get d 0 = Ok d0
          /\ files w' !! Os.path_join out
               ("target_0_recon_" +:+ pretty (Z.of_nat t) +:+ ".png")
             = Some (png_encode (decoder_net (Torch.flatten d0))))
  /\ (forall path,
        (forall t, (a <= t < a + n)%nat -> (t mod 5 = 0)%nat ->
           path <> Os.path_join out
                     ("target_0_recon_" +:+ pretty (Z.of_nat t) +:+ ".png")) ->
        files w' !! path = files w !! path).
Proof.
  revert a acc w. induction n as [|n IH]; intros a acc w H.
  - simpl in H. apply ret_ok in H. destruct H as [-> _].
    repeat split; auto. intros t Ht. lia.
  - cbn [seq for_acc] in H. run_inv H as acc1 w1 Hstep.
    apply IH in H. destruct H as (HT & Hlog & Hin & Hout).
    unfold list_step in Hstep.
    lift_inv Hstep as d Hd. rewrite index_nat in Hd.
    destruct (designs !! a) as [d'|] eqn:Ea; [|discriminate Hd].
    injection Hd as ->.
    lift_inv Hstep as d0 Hd0.
    lift_inv Hstep as o Ho.
    lift_inv Hstep as y Hy.
    run_inv Hstep as u1 w2 Hsave.
    apply ret_ok in Hstep. destruct Hstep as [-> _].
    destruct (Nat.eqb_spec (a mod 5) 0) as [H5|H5].
    + run_inv Hsave as recon w3 Hdec. apply ret_ok in Hdec.
      destruct Hdec as [-> ->].
      unfold save_image, Os.write in Hsave. injection Hsave as <-.
      cbn [ho_T files plt_log] in HT, Hlog, Hout.
      split; [exact HT|]. split; [exact Hlog|]. split.
      * intros t Ht Ht5. destruct (decide (t = a)) as [->|Hne].
        -- exists d, d0. repeat split; try assumption.
           rewrite Hout; [apply lookup_insert_eq|].
           intros t' Ht' _ Heq. apply recon_name_inj in Heq. lia.
        -- apply Hin; [lia|exact Ht5].
      * intros path Hpath. rewrite Hout.
        -- apply lookup_insert_ne. apply not_eq_sym, Hpath; [lia|exact H5].
        -- intros t Ht Ht5. apply Hpath; [lia|exact Ht5].
    + apply ret_ok in Hsave. destruct Hsave as [-> _].
      split; [exact HT|]. split; [exact Hlog|]. split.
      * intros t Ht Ht5. destruct (decide (t = a)) as [->|Hne]; [contradiction|].
        apply Hin; [lia|exact Ht5].
      * intros path Hpath. apply Hout.
        intros t Ht Ht5. apply Hpath; [lia|exact Ht5].
Qed.

(** X16: a roll-out block that returns has written the decoded true
    parameter to [target_0.png] and the decoding of every fifth design
    of the roll-out (steps 0, 5, 10, ...) to its own file in the output
    directory, whose name carries the last checkpoint; it has saved no
    other image, and the one plotting call recorded is the trace plot of
    [plotters]. *)
Theorem rollout_block_files (s : Setup) (p : Z) (mi_estimator : string)
    (w w' : World) (run : list Tensor * list Tensor * string) :
  rollout_block s p mi_estimator w = (w', Ok run) ->
  exists T_last,
    Py.index (T_to_plot s) (-1) = Ok T_last
    /\ run.2 = Os.path_join "./latex_figures"
                 (pretty p +:+ "_dim_" +:+ mi_estimator +:+ "_" +:+ pretty T_last)
    /\ plt_log w' = plt_log w ++ [PlotTrace T_last]
    /\ files w' !! Os.path_join run.2 "target_0.png"
       = Some (png_encode (decoder_net (Torch.squeeze (theta s))))
    /\ (forall t : nat, Z.of_nat t < T_last -> (t mod 5 = 0)%nat ->
          exists d d0,
            run.1.1 !! t = Some d /\ Torch.get d 0 = Ok d0
            /\ files w' !! Os.path_join run.2
                 ("target_0_recon_" +:+ pretty (Z.of_nat t) +:+ ".png")
               = Some (png_encode (decoder_net (Torch.flatten d0))))
    /\ (forall path,
          path <> Os.path_join run.2 "target_0.png" ->
          (forall t : nat, Z.of_nat t < T_last -> (t mod 5 = 0)%nat ->
             path <> Os.path_join run.2
                       ("target_0_recon_" +:+ pretty (Z.of_nat t) +:+ ".png")) ->
          files w' !! path = files w !! path).
Proof.
  unfold rollout_block. intros H.
  get_T_inv H.
  lift_inv H as T_last HT.
  set_T_inv H.
  run_inv H as rollout w1 H1. apply run_policy_world in H1. subst w1.
  get_T_inv H. cbn [ho_T] in H.
  run_inv H as recon w2 H2. apply ret_ok in H2. destruct H2 as [-> ->].
  run_inv H as u1 w3 H3. unfold save_image, Os.write in H3. injection H3 as <-.
  run_inv H as runs w4 H4.
  lift_inv H as run_df Hdf.
  get_T_inv H.
  run_inv H as u2 w5 H5. apply plt_ok in H5. subst w5.
  set_T_inv H.
  apply ret_ok in H. destruct H as [-> ->].
  unfold Py.range in H4. apply list_loop_ok in H4.
  destruct H4 as (HT4 & Hlog4 & Hin & Hout).
  cbn [ho_T files plt_log fst snd] in *.
  exists T_last. split; [exact HT|]. split; [reflexivity|].
  split; [rewrite Hlog4, HT4; reflexivity|]. split; [|split].
  - rewrite Hout; [apply lookup_insert_eq|].
    intros t _ _ Heq. symmetry in Heq. exact (recon_name_not_target _ _ Heq).
  - intros t Ht Ht5. apply Hin; [lia|exact Ht5].
  - intros path Hp1 Hp2. rewrite Hout.
    + apply lookup_insert_ne. apply not_eq_sym. exact Hp1.
    + intros t Ht Ht5. apply Hp2; [lia|exact Ht5].
Qed.

End RolloutFiles.


(** ** The script stays in its output directory *)

Lemma prefix_app_r (a b c : string) :
  String.prefix a b = true -> String.prefix a (b +:+ c) = true.
Proof.
  revert b. induction a as [|x a IH]; intros b H.
  { destruct (b +:+ c); reflexivity. }
  destruct b as [|y b]; [discriminate H|]. simpl in *.
  destruct (Ascii.ascii_dec x y); [apply IH; exact H|discriminate H].
Qed.

Lemma prefix_cons (a b : Ascii.ascii) (s1 s2 : string) :
  String.prefix (String a s1) (String b s2)
  = if Ascii.ascii_dec a b then String.prefix s1 s2 else false.
Proof. reflexivity. Qed.

Lemma pretty_N_go_no_slash (x : N) (s : string) :
  (s <> "" \/ (0 < x)%N) ->
  (forall r, s <> "/" +:+ r) ->
  pretty_N_go x s <> "" /\ forall r, pretty_N_go x s <> "/" +:+ r.
Proof.
  revert s. induction (N.lt_wf_0 x) as [x _ IH]; intros s Hne Hs.
  assert (x = 0 \/ 0 < x)%N as [->|Hpos] by lia.
  - rewrite pretty_N_go_0. split; [|exact Hs]. destruct Hne as [Hne|Hne]; [exact Hne|lia].
  - rewrite pretty_N_go_step by exact Hpos. apply IH.
    + apply N.div_lt; [exact Hpos|reflexivity].
    + left. discriminate.
    + intros r. unfold pretty_N_char. repeat case_match; discriminate.
Qed.

Lemma pretty_Z_no_slash (z : Z) (s : string) :
  String.prefix "/" (pretty z +:+ s) = false.
Proof.
  assert (H : pretty z <> "" /\ forall r, pretty z <> "/" +:+ r).
  { destruct z as [|x|x]; unfold pretty, pretty_Z.
    - split; [discriminate|]. intros r. discriminate.
    - unfold pretty, pretty_positive, pretty, pretty_N.
      destruct (decide (N.pos x = 0%N)); [discriminate|].
      apply pretty_N_go_no_slash; [right; lia|]. intros r. discriminate.
    - split; [discriminate|]. intros r. discriminate. }
  destruct H as [Hne Hs]. destruct (pretty z) as [|c r]; [congruence|].
  change (String c r +:+ s) with (String c (r +:+ s)).
  rewrite prefix_cons.
  match goal with
  | |- context [Ascii.ascii_dec ?a c] =>
      destruct (Ascii.ascii_dec a c) as [<-|]; [|reflexivity]
  end.
  exfalso. apply (Hs r). reflexivity.
Qed.

(** The output directory lies under [./latex_figures/]. *)
Lemma output_path_under (p : Z) (rest : string) :
  String.prefix "./latex_figures/"
    (Os.path_join "./latex_figures" (pretty p +:+ rest)) = true.
Proof.
  unfold Os.path_join. rewrite pretty_Z_no_slash.
  change ("./latex_figures" =? "")%string with false.
  change (String.prefix "/" (String.rev "./latex_figures")) with false.
  cbv iota.
  change ("./latex_figures" +:+ "/" +:+ pretty p +:+ rest)
    with ("./latex_figures/" +:+ (pretty p +:+ rest)).
  apply prefix_app_r. reflexivity.
Qed.

Lemma path_join_under (dir name : string) :
  String.prefix "./latex_figures/" dir = true ->
  String.prefix "/" name = false ->
  String.prefix "./latex_figures/" (Os.path_join dir name) = true.
Proof.
  intros Hdir Hname. unfold Os.path_join. rewrite Hname.
  destruct dir as [|c dir]; [discriminate Hdir|]. cbn [String.eqb].
  destruct (String.prefix "/" (String.rev (String c dir)));
    apply prefix_app_r; exact Hdir.
Qed.

Lemma preserves_bind_post {A B} (I : World -> Prop) (Q : A -> Prop)
    (m : M A) (k : A -> M B) :
  (forall w w' a, m w = (w', Ok a) -> Q a) ->
  preserves I m ->
  (forall a, Q a -> preserves I (k a)) ->
  preserves I (m ≫= k).
Proof.
  intros HQ Hm Hk w Hw. unfold mbind, M_bind, bind.
  specialize (Hm w Hw). destruct (m w) as [w1 [a|e]] eqn:E; simpl in *.
  - apply (Hk a); [eapply HQ; exact E|exact Hm].
  - exact Hm.
Qed.

Section OutputDirectory.

Context {L : Libs}.

Lemma outside_write (w0 w : World) (path : string) (b : list Byte.byte) :
  String.prefix "./latex_figures/" path = true ->
  outside w0 w ->
  outside w0 (mkWorld (ho_T w) (<[path := b]> (files w)) (plt_log w)).
Proof.
  intros Hpath Hw q Hq. cbn [files].
  rewrite lookup_insert_ne by congruence. apply Hw. exact Hq.
Qed.

Lemma outside_remove (w0 w : World) (path : string) :
  String.prefix "./latex_figures/" path = true ->
  outside w0 w ->
  outside w0 (mkWorld (ho_T w) (delete path (files w)) (plt_log w)).
Proof.
  intros Hpath Hw q Hq. cbn [files].
  rewrite lookup_delete_ne by congruence. apply Hw. exact Hq.
Qed.

Lemma rollout_block_outside (w0 : World) (s : Setup) (p : Z)
    (mi_estimator : string) :
  preserves (outside w0) (rollout_block s p mi_estimator).
Proof.
  repeat pres_step;
    try (intros w Hw; exact Hw);
    intros w Hw; apply outside_write; try exact Hw;
    apply path_join_under; try reflexivity; apply output_path_under.
Qed.

Lemma rollout_block_dir (s : Setup) (p : Z) (mi_estimator : string)
    (w w' : World) (run : list Tensor * list Tensor * string) :
  rollout_block s p mi_estimator w = (w', Ok run) ->
  String.prefix "./latex_figures/" run.2 = true.
Proof.
  unfold rollout_block. intros H.
  get_T_inv H.
  lift_inv H as T_last HT.
  set_T_inv H.
  run_inv H as rollout w1 H1.
  get_T_inv H.
  run_inv H as recon w2 H2. apply ret_ok in H2. destruct H2 as [-> ->].
  run_inv H as u1 w3 H3.
  run_inv H as runs w4 H4.
  lift_inv H as run_df Hdf.
  get_T_inv H.
  run_inv H as u2 w5 H5.
  set_T_inv H.
  apply ret_ok in H. destruct H as [-> ->].
  apply output_path_under.
Qed.

Lemma plot_vae_decode_outside (w0 : World) (embedding_list : list Tensor)
    (dir mi_estimator : string) (T_list : list Z) (index p : Z) (type : string) :
  String.prefix "./latex_figures/" dir = true ->
  preserves (outside w0)
    (plot_vae_decode embedding_list dir mi_estimator T_list index p type).
Proof.
  intros Hdir. unfold plot_vae_decode. cbv zeta.
  apply preserves_bind; [repeat pres_step; intros w Hw; exact Hw|intros axs].
  apply (preserves_bind_post _
           (fun tmp => tmp = None \/ tmp = Some (Os.path_join dir "temp.png"))).
  - intros w w' tmp Hloop.
    apply (for_acc_ok
             (fun _ (acc : option string) _ =>
                acc = None \/ acc = Some (Os.path_join dir "temp.png")) _)
      with (done := []) in Hloop; [exact Hloop| |left; reflexivity].
    intros done [i e] acc wa acc' wb _ Hbody. right.
    run_inv Hbody as recon wc Hc. run_inv Hbody as u1 wd Hd.
    run_inv Hbody as img we He. run_inv Hbody as u2 wf Hf.
    run_inv Hbody as u3 wg Hg. run_inv Hbody as u4 wh Hh.
    apply ret_ok in Hbody. destruct Hbody as [_ ->]. reflexivity.
  - repeat pres_step;
      try (intros w Hw; exact Hw);
      intros w Hw; apply outside_write; try exact Hw;
      apply path_join_under; [exact Hdir|reflexivity].
  - intros tmp Htmp.
    repeat pres_step; try (intros w Hw; exact Hw).
    + intros w Hw. apply outside_remove; [|exact Hw].
      destruct Htmp as [Htmp|Htmp]; [discriminate Htmp|].
      injection Htmp as ->. apply path_join_under; [exact Hdir|reflexivity].
    + intros w Hw. apply outside_write; [|exact Hw].
      apply prefix_app_r. exact Hdir.
Qed.

(** X17: whatever its outcome, the script leaves every file whose name
    does not start with [./latex_figures/] as it found it: every path it
    hands to [save_image], [os.remove] and [plt.savefig] lies under its
    output directory. *)
Theorem main_stays_in_output_directory (args : Args) (ho_p : Z)
    (mi_estimator design_arch : string) (w : World) (path : string) :
  String.prefix "./latex_figures/" path = false ->
  files (main args ho_p mi_estimator design_arch w).1 !! path = files w !! path.
Proof.
  intros Hpath.
  assert (Hp : preserves (outside w) (main args ho_p mi_estimator design_arch)).
  { unfold main. cbv zeta.
    apply preserves_bind; [repeat pres_step; intros w1 Hw1; exact Hw1|intros s].
    apply (preserves_bind_post _
             (fun run : list Tensor * list Tensor * string =>
                String.prefix "./latex_figures/" run.2 = true)).
    - intros w1 w2 run Hrun. eapply rollout_block_dir. exact Hrun.
    - apply rollout_block_outside.
    - intros run Hdir.
      apply preserves_bind; [repeat pres_step; intros w1 Hw1; exact Hw1|intros lists].
      apply preserves_bind; [apply preserves_lift|intros true_thetas].
      apply plot_vae_decode_outside. exact Hdir. }
  apply (Hp w); [|exact Hpath]. intros q _. reflexivity.
Qed.

End OutputDirectory.


(** ** The further properties on the small instance *)

(** X5: checkpoint 5 with no design at hand. *)
Lemma checkpoint_raise_keeps_swap_witness :
  mkWorld 5 ∅ [] = mkWorld 5 (files Demo.world) (plt_log Demo.world).
Proof.
  apply (checkpoint_raise_keeps_swap (L := Demo.libs) (grid Demo.setup)
           (positions Demo.setup) 2 [] [] ([], []) 5 Demo.world
           (mkWorld 5 ∅ []) IndexError).
  vm_compute. reflexivity.
Defined.

(** X6: a roll-out of length 0. *)
Lemma rollout_block_raise_keeps_swap_witness :
  (T_to_plot Demo2.setup0 = [] /\ Demo2.rolled0 = Demo.world
   /\ LibraryError = IndexError)
  \/ (exists T_last,
        Py.index (T_to_plot Demo2.setup0) (-1) = Ok T_last
        /\ ho_T Demo2.rolled0 = T_last).
Proof.
  apply (rollout_block_raise_keeps_swap (L := Demo.libs) Demo2.setup0 2
           "sPCE_sum" Demo.world Demo2.rolled0 LibraryError).
  vm_compute. reflexivity.
Defined.

(** X7: the pass for checkpoint 10. *)
Lemma checkpoint_conditions_on_prefix_witness :
  exists (data_dict : gmap string Tensor) (samples : Tensor),
    @nuts_sample Demo.libs (mcmc_of 2) 10 data_dict = Ok samples
    /\ (forall t : nat, 0 <= Z.of_nat t < 10 ->
          data_dict !! ("xi" +:+ pretty (Z.of_nat t + 1))
          = Torch.unsqueeze0 <$> Demo.designs !! t
          /\ is_Some (Demo.designs !! t)
          /\ data_dict !! ("y" +:+ pretty (Z.of_nat t + 1))
             = Torch.unsqueeze0 <$> Demo.observations !! t
          /\ is_Some (Demo.observations !! t))
    /\ (forall key, is_Some (data_dict !! key) ->
          exists t : nat, 0 <= Z.of_nat t < 10
            /\ (key = "xi" +:+ pretty (Z.of_nat t + 1)
                \/ key = "y" +:+ pretty (Z.of_nat t + 1))).
Proof.
  apply (checkpoint_conditions_on_prefix (L := Demo.libs) (grid Demo.setup)
           (positions Demo.setup) 2 Demo.designs Demo.observations ([], [])
           Demo2.pass10 10 Demo.world Demo.world).
  vm_compute. reflexivity.
Defined.

(** X8: checkpoint 40 after a roll-out of length 30. *)
Lemma checkpoint_beyond_rollout_witness :
  @checkpoint Demo.libs (grid Demo.setup) (positions Demo.setup) 2 Demo.designs
    Demo.observations ([], []) 40 Demo.world
  = (mkWorld 40 (files Demo.world) (plt_log Demo.world), Raise IndexError).
Proof.
  apply (checkpoint_beyond_rollout (L := Demo.libs)).
  left. vm_compute. reflexivity.
Defined.

(** X9: the pass for checkpoint 0, with 5 bins and 2 dimensions. *)
Lemma density_grid_shape_witness :
  exists m f,
    Demo.first_pass = (([] : list Tensor) ++ [m], ([] : list Tensor) ++ [f])
    /\ shape f = repeat (Z.to_nat (Z.abs 5)) (Z.to_nat 2)
    /\ length (data f) = (Z.to_nat (Z.abs 5) ^ Z.to_nat 2)%nat
    /\ shape m = [Z.to_nat 2]
    /\ length (data m) = Z.to_nat 2.
Proof.
  apply (density_grid_shape (L := Demo.libs) Demo.args30 2 Demo.setup
           Demo.world Demo.world [] [] ([], []) Demo.first_pass 0 Demo.world
           Demo.world).
  - vm_compute. reflexivity.
  - vm_compute. reflexivity.
Defined.

(** X10: four samples of a one-dimensional latent. *)
Lemma extract_map_needs_a_table_witness :
  @extract_map Demo.libs (grid Demo.setup) (positions Demo.setup) 1
    (mkTensor [4%nat; 1%nat; 1%nat] [0 # 1; 1 # 1; 1 # 2; 1 # 4]%Q)
  = Raise IndexError.
Proof.
  apply (extract_map_needs_a_table (L := Demo.libs) (grid Demo.setup)
           (positions Demo.setup) 1
           (mkTensor [4%nat; 1%nat; 1%nat] [0 # 1; 1 # 1; 1 # 2; 1 # 4]%Q)
           4%nat 1%nat).
  - lia.
  - reflexivity.
  - right. reflexivity.
Defined.

(** X11: four checkpoints and five embeddings. *)
Lemma plot_vae_decode_needs_room_witness :
  (1 <= length (Demo.lists.1 ++ [Torch.squeeze (theta Demo.setup)])
   <= 4 * (length (T_to_plot Demo.setup) / 4 + 1))%nat.
Proof.
  apply (plot_vae_decode_needs_room (L := Demo.libs)
           (Demo.lists.1 ++ [Torch.squeeze (theta Demo.setup)])
           "out" "sPCE_sum" (T_to_plot Demo.setup) 0 2 "MAP" Demo.world
           Demo.plotted).
  vm_compute. reflexivity.
Defined.

(** X12: the same call. *)
Lemma plot_vae_decode_draws_witness :
  Demo.plotted
  = @tiled Demo.libs (Demo.lists.1 ++ [Torch.squeeze (theta Demo.setup)]) "out"
      "sPCE_sum" (T_to_plot Demo.setup) 0 2 "MAP" Demo.world.
Proof.
  apply (plot_vae_decode_draws (L := Demo.libs)).
  vm_compute. reflexivity.
Defined.

(** X13: seven checkpoints and eight embeddings; the last one, shown in
    panel (1, 3), is removed. *)
Lemma full_grid_loses_last_row_witness :
  RemoveAx (7 / 4) (7 mod 4) ∈ plt_log Demo2.tiled8
  <-> (length Demo2.eight = 4 * (length Demo2.seven / 4 + 1)
       /\ length Demo2.eight - 4 <= 7)%nat.
Proof.
  apply (full_grid_loses_last_row (L := Demo.libs) Demo2.eight "out" "sPCE_sum"
           Demo2.seven 0 2 "MAP" Demo.world Demo2.tiled8 7%nat).
  - vm_compute. reflexivity.
  - constructor.
  - vm_compute. lia.
Defined.

(** X14: the four density grids of the small instance. *)
Lemma plot_posterior_grid_needs_witness :
  length (grid Demo.setup) = 2%nat
  /\ (2 <= length (T_to_plot Demo.setup) <= length Demo.lists.2)%nat.
Proof.
  apply (plot_posterior_grid_needs (L := Demo.libs) ((-3 # 2)%Q, (3 # 2)%Q)
           (grid Demo.setup) Demo.lists.2 Demo.designs (T_to_plot Demo.setup)
           "sPCE_sum" (theta Demo.setup) "./latex_figures" 0 Demo.world
           Demo2.contoured).
  vm_compute. reflexivity.
Defined.

(** X15: the same call. *)
Lemma plot_posterior_grid_draws_witness :
  exists T_last path,
    Py.index (T_to_plot Demo.setup) (-1) = Ok T_last
    /\ path = "./latex_figures" +:+ "/2dim_" +:+ "sPCE_sum" +:+ "_"
              +:+ pretty T_last +:+ "_" +:+ pretty 0 +:+ "progress.png"
    /\ filter (fun c => is_contour c = true) (plt_log Demo2.contoured)
       = filter (fun c => is_contour c = true) (plt_log Demo.world)
         ++ flat_map (fun pdf => [Contourf pdf; Contour pdf])
              (take (length (T_to_plot Demo.setup)) Demo.lists.2)
    /\ last (plt_log Demo2.contoured) = Some (Savefig path)
    /\ files Demo2.contoured
       = <[path := @render_png Demo.libs (plt_log Demo2.contoured)]>
           (files Demo.world)
    /\ ho_T Demo2.contoured = ho_T Demo.world.
Proof.
  apply (plot_posterior_grid_draws (L := Demo.libs) ((-3 # 2)%Q, (3 # 2)%Q)
           (grid Demo.setup) Demo.lists.2 Demo.designs (T_to_plot Demo.setup)
           "sPCE_sum" (theta Demo.setup) "./latex_figures" 0 Demo.world
           Demo2.contoured).
  vm_compute. reflexivity.
Defined.

(** X16: the roll-out block of the small instance. *)
Lemma rollout_block_files_witness :
  exists T_last,
    Py.index (T_to_plot Demo.setup) (-1) = Ok T_last
    /\ Demo2.run.2 = Os.path_join "./latex_figures"
                 (pretty 2 +:+ "_dim_" +:+ "sPCE_sum" +:+ "_" +:+ pretty T_last)
    /\ plt_log Demo2.rolled = plt_log Demo.world ++ [PlotTrace T_last]
    /\ files Demo2.rolled !! Os.path_join Demo2.run.2 "target_0.png"
       = Some (@png_encode Demo.libs
                 (@decoder_net Demo.libs (Torch.squeeze (theta Demo.setup))))
    /\ (forall t : nat, Z.of_nat t < T_last -> (t mod 5 = 0)%nat ->
          exists d d0,
            Demo2.run.1.1 !! t = Some d /\ Torch.get d 0 = Ok d0
            /\ files Demo2.rolled !! Os.path_join Demo2.run.2
                 ("target_0_recon_" +:+ pretty (Z.of_nat t) +:+ ".png")
               = Some (@png_encode Demo.libs
                         (@decoder_net Demo.libs (Torch.flatten d0))))
    /\ (forall path,
          path <> Os.path_join Demo2.run.2 "target_0.png" ->
          (forall t : nat, Z.of_nat t < T_last -> (t mod 5 = 0)%nat ->
             path <> Os.path_join Demo2.run.2
                       ("target_0_recon_" +:+ pretty (Z.of_nat t) +:+ ".png")) ->
          files Demo2.rolled !! path = files Demo.world !! path).
Proof.
  apply (rollout_block_files (L := Demo.libs) Demo.setup 2 "sPCE_sum" Demo.world
           Demo2.rolled Demo2.run).
  vm_compute. reflexivity.
Defined.

(** X17: a file next to the output directory survives a full run. *)
Lemma main_stays_in_output_directory_witness :
  files (@main Demo.libs Demo.args30 2 "sPCE" "sum" Demo2.world_notes).1
    !! "notes.txt"
  = files Demo2.world_notes !! "notes.txt".
Proof.
  apply (main_stays_in_output_directory (L := Demo.libs) Demo.args30 2 "sPCE"
           "sum" Demo2.world_notes "notes.txt").
  reflexivity.
Defined.
